(** * Multi-file diff of EasyBuild: a shallow embedding of
    [easybuild/tools/multidiff.py] and the properties of its alignment,
    grouping, mask merging and rendering.

    Python strings are [string], characters [ascii], integers [Z]; the
    dictionaries of the class are stdpp finite maps and its sets [gset]s;
    exceptions are the [Err] results of a small error monad. *)

From Stdlib Require Import ZArith String Ascii List Lia DecimalString.
From stdpp Require Import base option list strings gmap sets sorting.

Local Open Scope string_scope.
Local Open Scope Z_scope.

(** ** Exceptions *)

Inductive exn : Type :=
  | IndexError : exn
  | ValueError : exn
  | EasyBuildError (msg : string) : exn.

Inductive result (A : Type) : Type :=
  | Ok (a : A) : result A
  | Err (e : exn) : result A.
Arguments Ok {A} a.
Arguments Err {A} e.

Global Instance result_ret : MRet result := λ A a, Ok a.
Global Instance result_bind : MBind result := λ A B k r,
  match r with
  | Ok a => k a
  | Err e => Err e
  end.

Definition raises {A : Type} (r : result A) : Prop :=
  match r with
  | Ok _ => False
  | Err _ => True
  end.

(** ** The Python primitives the module uses *)

Module Py.

Definition chars (s : string) : list ascii := list_ascii_of_string s.
Definition str (l : list ascii) : string := string_of_list_ascii l.

(** [len(s)] *)
Definition len (s : string) : Z := Z.of_nat (String.length s).

(** [sep.join(l)] *)
Definition join (sep : string) (l : list string) : string := String.concat sep l.

(** [s.startswith(p)] *)
Definition startswith (p s : string) : bool := String.prefix p s.

(** [str(n)] and [%d] *)
Definition str_of_int (n : Z) : string := NilZero.string_of_int (Z.to_int n).

(** The characters [str.isspace] accepts: tab, newline, vertical tab,
    form feed, carriage return and the space. *)
Definition isspace (c : ascii) : bool :=
  let n := nat_of_ascii c in
  ((9 <=? n)%nat && (n <=? 13)%nat) || (n =? 32)%nat.

Fixpoint rstrip_chars (l : list ascii) : list ascii :=
  match l with
  | [] => []
  | c :: r =>
      match rstrip_chars r with
      | [] => if isspace c then [] else [c]
      | r' => c :: r'
      end
  end.

(** [s.rstrip()] *)
Definition rstrip (s : string) : string := str (rstrip_chars (chars s)).

(** [l.insert(i, x)] for [i >= 0]: past the end it appends. *)
Definition insert {A : Type} (i : nat) (x : A) (l : list A) : list A :=
  (take i l ++ x :: drop i l)%list.

(** [s[:k]], where a negative [k] counts from the end. *)
Definition slice_to (k : Z) (s : string) : string :=
  let l := chars s in
  if 0 <=? k then str (take (Z.to_nat k) l)
  else str (take (Z.to_nat (Z.of_nat (length l) + k)) l).

(** [c * k] for a one-character string: empty when [k <= 0]. *)
Definition repeat_char (c : ascii) (k : Z) : string :=
  str (replicate (Z.to_nat k) c).

Fixpoint log10_floor (fuel : nat) (n : Z) : Z :=
  match fuel with
  | O => 0
  | S fuel' => if n <? 10 then 0 else 1 + log10_floor fuel' (n / 10)
  end.

(** [int(math.log10(n))]: a [ValueError] (math domain error) unless
    [n > 0]; otherwise the integer part of the decimal logarithm, taken
    exactly. *)
Definition int_log10 (n : Z) : result Z :=
  if n <=? 0 then Err ValueError
  else Ok (log10_floor (Z.to_nat (Z.log2 n)) n).

(** [os.path.basename(p)]: what follows the last slash. *)
Definition basename (p : string) : string :=
  str (fold_left (λ acc c, if Ascii.eqb c "/"%char then [] else (acc ++ [c])%list)
                 (chars p) []).

(** [sorted(l, key=key)]: a stable sort, smallest key first. *)
Fixpoint insert_by {A : Type} (key : A → nat) (x : A) (l : list A) : list A :=
  match l with
  | [] => [x]
  | y :: r => if (key x <=? key y)%nat then x :: y :: r
              else y :: insert_by key x r
  end.

Fixpoint sorted {A : Type} (key : A → nat) (l : list A) : list A :=
  match l with
  | [] => []
  | x :: r => insert_by key x (sorted key r)
  end.

(** The order in which a hash set hands out its elements: some
    enumeration of the distinct elements, fixed by the contents. *)
Class SetOrder := {
  set_iter : gset string → list string;
  set_iter_perm : ∀ X, set_iter X ≡ₚ elements X
}.

End Py.

(** ** Module constants *)

Definition SEP_WIDTH : Z := 5.

Definition ESC : string := String (ascii_of_nat 27) "".
Definition PURPLE : string := ESC ++ "[0;35m".
Definition GREEN_BACK : string := ESC ++ "[0;42m".
Definition RED_BACK : string := ESC ++ "[0;41m".
Definition END_COLOR : string := ESC ++ "[0m".

Definition HAT : ascii := "^"%char.
Definition MINUS : ascii := "-"%char.
Definition PLUS : ascii := "+"%char.
Definition SPACE : ascii := " "%char.

Definition END_LONG_LINE : string := "...".


(** Modelled from the spec: [_log.error], the [error] method of the module's
    logger, whose class is not under src/; recording a line of any other
    kind "fails loudly (programming-error class)", so the call raises. *)
Definition log_error {A : Type} (msg : string) : result A :=
  Err (EasyBuildError msg).

(** ** The class [MultiDiff] *)

(** What [parse_line] registers: the stripped diff line, the name of the
    file it comes from, and the squigly line ([None] when not given). *)
Definition change : Type := string * string * option string.

Record MultiDiff := {
  base : string;
  base_lines : list string;
  files : list string;
  colored : bool;
  diff_info : gmap Z (gmap ascii (list change))
}.

(** [MultiDiff.__init__], the lines of the base file being read already. *)
Definition init (base : string) (base_lines : list string)
    (files : list string) (colored : bool) : MultiDiff :=
  {| base := base; base_lines := base_lines; files := files;
     colored := colored; diff_info := ∅ |}.

Definition set_diff_info (self : MultiDiff)
    (d : gmap Z (gmap ascii (list change))) : MultiDiff :=
  {| base := base self; base_lines := base_lines self; files := files self;
     colored := colored self; diff_info := d |}.

(** Truth value of a string or [None]. *)
Definition truthy (s : option string) : bool :=
  match s with
  | Some (String _ _) => true
  | _ => false
  end.

(** [MultiDiff.parse_line]; [diff_line[0]] of an empty line is an
    [IndexError]. *)
Definition parse_line (self : MultiDiff) (line_no : Z) (diff_line meta : string)
    (squigly_line : option string) : result MultiDiff :=
  match diff_line with
  | EmptyString => Err IndexError
  | String key _ =>
      _ ← (if bool_decide (key ∈ [MINUS; PLUS]) then Ok tt
           else log_error ("diff line starts with unexpected character: " ++ diff_line));
      let by_key := default ∅ (diff_info self !! line_no) in
      let line_key_tuples := default [] (by_key !! key) in
      Ok (set_diff_info self
            (<[line_no :=
                 <[key := (line_key_tuples
                             ++ [(Py.rstrip diff_line, meta, squigly_line)])%list]>
                   by_key]> (diff_info self)))
  end.

(** [MultiDiff.color_line] *)
Definition color_line (self : MultiDiff) (line color : string) : string :=
  if colored self then Py.join "" [color; line; END_COLOR] else line.

(** The loop of [merge_squigly], at index [i]; [base] is never shorter
    than [other], so [base[i]] exists. *)
Fixpoint merge_loop (i : nat) (other base : list ascii) : list ascii :=
  match other with
  | [] => base
  | o :: other' =>
      merge_loop (S i) other'
        (match base !! i with
         | Some b =>
             if bool_decide (b ∈ [HAT; SPACE]) && bool_decide (b ≠ o)
             then <[i := o]> base else base
         | None => base
         end)
  end.

(** [MultiDiff.merge_squigly] *)
Definition merge_squigly (squigly1 squigly2 : string) : string :=
  let sq1 := Py.chars squigly1 in
  let sq2 := Py.chars squigly2 in
  let '(base, other) :=
    if (length sq2 <? length sq1)%nat then (sq1, sq2) else (sq2, sq1) in
  Py.str (merge_loop 0 other base).

(** [color_map.get(s, '')] in [colorize] *)
Definition color_map (line : string) (s : ascii) : string :=
  if bool_decide (s = HAT) then
    (if Py.startswith (String PLUS "") line then GREEN_BACK else RED_BACK)
  else if bool_decide (s = MINUS) then RED_BACK
  else if bool_decide (s = PLUS) then GREEN_BACK
  else "".

(** The loop of [colorize] over the squigly line, from index [i]; the state
    is [(chars, flag, compensator)]. *)
Fixpoint colorize_loop (line : string) (i : nat) (squigly : list ascii)
    (st : list string * ascii * nat) : list string * ascii * nat :=
  match squigly with
  | [] => st
  | s :: squigly' =>
      let '(chars, flag, compensator) := st in
      colorize_loop line (S i) squigly'
        (if bool_decide (s ≠ flag) then
           let chars := Py.insert (i + compensator) END_COLOR chars in
           let compensator := S compensator in
           if bool_decide (s ∈ [HAT; MINUS; PLUS]) then
             (Py.insert (i + compensator) (color_map line s) chars, s,
              S compensator)
           else (chars, s, compensator)
         else st)
  end.

(** [MultiDiff.colorize]; [line[0]] of an empty line is an [IndexError]. *)
Definition colorize (self : MultiDiff) (line : string)
    (squigly : option string) : result string :=
  if negb (colored self) then Ok line
  else
    let chars := (λ c, String c "") <$> Py.chars line in
    if truthy squigly then
      let sq := Py.chars (default "" squigly) in
      let '(chars, _, compensator) := colorize_loop line 0 sq (chars, SPACE, O) in
      Ok (Py.join "" (Py.insert (length sq + compensator) END_COLOR chars))
    else
      match line with
      | EmptyString => Err IndexError
      | String c _ =>
          Ok (Py.join "" (Py.insert 0 (color_map line c) chars ++ [END_COLOR])%list)
      end.

(** [limit], the local function of [__str__] *)
Definition limit (self : MultiDiff) (text : string) (length : Z) : string :=
  if length <? Py.len text then
    let maxlen := length - Py.len END_LONG_LINE in
    let res := Py.slice_to maxlen text in
    let res := if colored self then res ++ END_COLOR else res in
    res ++ END_LONG_LINE
  else text.

Definition max_groups : nat := 2.

Section get_line.
Context `{SO : Py.SetOrder}.

(** One round of the loop of [get_line] over the tuples of a key; the
    state is [(lines, changes_dict, squigly_dict)]. *)
Definition scan_step
    (st : gset string * gmap string (gset string) * gmap string string)
    (c : change) : gset string * gmap string (gset string) * gmap string string :=
  let '(lines, changes_dict, squigly_dict) := st in
  let '(diff_line, meta, squigly_line) := c in
  let squigly_dict :=
    if truthy squigly_line then
      let sq := default "" squigly_line in
      let squigly_line2 := default sq (squigly_dict !! diff_line) in
      <[diff_line := merge_squigly sq squigly_line2]> squigly_dict
    else squigly_dict in
  (lines ∪ {[diff_line]},
   <[diff_line := default ∅ (changes_dict !! diff_line) ∪ {[meta]}]> changes_dict,
   squigly_dict).

Definition scan (tuples : list change)
    : gset string * gmap string (gset string) * gmap string string :=
  fold_left scan_step tuples (∅, ∅, ∅).

(** [len(changes_dict[line])]; every line of [lines] is a key of
    [changes_dict]. *)
Definition num_files_of (changes_dict : gmap string (gset string))
    (line : string) : nat :=
  size (default ∅ (changes_dict !! line)).

(** The lines displayed for one key: sorted by the number of files,
    reversed, cut to [max_groups]. *)
Definition select_lines (lines : gset string)
    (changes_dict : gmap string (gset string)) : list string :=
  take max_groups
    (rev (Py.sorted (num_files_of changes_dict) (Py.set_iter lines))).

(** The body of the loop of [get_line] over the selected lines. *)
Definition render_line (self : MultiDiff) (line_no : Z)
    (changes_dict : gmap string (gset string))
    (squigly_dict : gmap string string) (diff_line : string)
    : result (list string) :=
  let squigly_line := default "" (squigly_dict !! diff_line) in
  colorized ← colorize self diff_line (Some squigly_line);
  let files_of_line := default ∅ (changes_dict !! diff_line) in
  let num_files := length (files self) in
  let ratio :=
    "(" ++ Py.str_of_int (Z.of_nat (size files_of_line)) ++ "/"
        ++ Py.str_of_int (Z.of_nat num_files) ++ ")" in
  let line :=
    app [Py.str_of_int line_no; colorized; ratio]
        (if bool_decide (size files_of_line ≠ num_files)
         then [Py.join ", " (Py.set_iter files_of_line)] else []) in
  if negb (colored self) && truthy (Some squigly_line) then
    log ← Py.int_log10 line_no;
    let prepend := Py.repeat_char SPACE (2 + log) in
    Ok [Py.join " " line; Py.join "" [prepend; squigly_line]]
  else Ok [Py.join " " line].

Fixpoint render_lines (self : MultiDiff) (line_no : Z)
    (changes_dict : gmap string (gset string))
    (squigly_dict : gmap string string) (lines : list string)
    : result (list string) :=
  match lines with
  | [] => Ok []
  | diff_line :: lines' =>
      out ← render_line self line_no changes_dict squigly_dict diff_line;
      rest ← render_lines self line_no changes_dict squigly_dict lines';
      Ok (out ++ rest)%list
  end.

(** The groups of [get_line] for one key. *)
Definition groups_for (self : MultiDiff) (line_no : Z) (key : ascii)
    : list string :=
  let diff_dict := default ∅ (diff_info self !! line_no) in
  let '(lines, changes_dict, _) := scan (default [] (diff_dict !! key)) in
  select_lines lines changes_dict.

Definition render_key (self : MultiDiff) (line_no : Z) (key : ascii)
    : result (list string) :=
  let diff_dict := default ∅ (diff_info self !! line_no) in
  let '(lines, changes_dict, squigly_dict) :=
    scan (default [] (diff_dict !! key)) in
  render_lines self line_no changes_dict squigly_dict
    (select_lines lines changes_dict).

Definition separator : list string :=
  [" "; Py.repeat_char MINUS SEP_WIDTH; " "].

(** Whether any change is registered at a line number. *)
Definition has_diff (self : MultiDiff) (line_no : Z) : bool :=
  bool_decide (default ∅ (diff_info self !! line_no) ≠ ∅).

(** [MultiDiff.get_line] *)
Definition get_line (self : MultiDiff) (line_no : Z) : result (list string) :=
  removals ← render_key self line_no MINUS;
  additions ← render_key self line_no PLUS;
  Ok (removals ++ additions
      ++ (if has_diff self line_no && negb (has_diff self (line_no + 1))
          then separator else []))%list.

(** The loop of [__str__] over the line numbers; the state is
    [(output, diff)]. *)
Fixpoint str_loop (self : MultiDiff) (term_width : Z) (line_nos : list Z)
    (st : list string * bool) : result (list string * bool) :=
  match line_nos with
  | [] => Ok st
  | i :: line_nos' =>
      out ← get_line self i;
      let lines := filter (λ line, line ≠ "") out in
      match lines with
      | [] => str_loop self term_width line_nos' st
      | _ =>
          str_loop self term_width line_nos'
            ((st.1 ++ [Py.join (String "010" "")
                         ((λ line, limit self line term_width) <$> lines)])%list,
             true)
      end
  end.

(** [range(n)] *)
Definition range (n : nat) : list Z := Z.of_nat <$> seq 0 n.

(** The list [output] that [__str__] joins; [term_width] is what
    [det_terminal_size] reports. *)
Definition str_output (self : MultiDiff) (term_width : Z)
    : result (list string) :=
  let base_name := color_line self (Py.basename (base self)) PURPLE in
  let filenames := Py.join ", " (Py.basename <$> files self) in
  let output :=
    ["Comparing " ++ base_name ++ " with " ++ filenames;
     Py.repeat_char "="%char SEP_WIDTH] in
  '(output, diff) ←
    str_loop self term_width (range (length (base_lines self))) (output, false);
  let output := if negb diff then (output ++ ["(no diff)"])%list else output in
  Ok (output ++ [Py.repeat_char "="%char SEP_WIDTH])%list.

(** [MultiDiff.__str__] *)
Definition to_str (self : MultiDiff) (term_width : Z) : result string :=
  output ← str_output self term_width;
  Ok (Py.join (String "010" "") output).

End get_line.

(** ** The function [multidiff] *)

(** [d.setdefault(k, []).append(v)] on a dictionary kept as the list of its
    items, keys in the order of their first insertion. *)
Fixpoint setdefault_append {V : Type} (k : Z) (v : V) (d : list (Z * list V))
    : list (Z * list V) :=
  match d with
  | [] => [(k, [v])]
  | (k', vs) :: d' =>
      if bool_decide (k' = k) then (k', (vs ++ [v])%list) :: d'
      else (k', vs) :: setdefault_append k v d'
  end.

Record align_state := {
  local_diff : list (Z * list (string * string));
  squigly_dict : gmap (option string) string;
  last_added : option string;
  compensator : Z
}.

Definition align_init : align_state :=
  {| local_diff := []; squigly_dict := ∅; last_added := None; compensator := 1 |}.

(** One round of the loop of [multidiff] over the lines of a diff. *)
Definition align_step (filename : string) (st : align_state) (i : Z)
    (line : string) : align_state :=
  if Py.startswith "?" line then
    {| local_diff := local_diff st;
       squigly_dict := <[last_added st := line]> (squigly_dict st);
       last_added := last_added st;
       compensator := compensator st - 1 |}
  else if Py.startswith (String PLUS "") line then
    {| local_diff :=
         setdefault_append (i + compensator st) (line, filename) (local_diff st);
       squigly_dict := squigly_dict st;
       last_added := Some line;
       compensator := compensator st |}
  else if Py.startswith (String MINUS "") line then
    {| local_diff :=
         setdefault_append (i + compensator st) (line, filename) (local_diff st);
       squigly_dict := squigly_dict st;
       last_added := Some line;
       compensator := compensator st - 1 |}
  else st.

Fixpoint align_loop (filename : string) (i : Z) (diff : list string)
    (st : align_state) : align_state :=
  match diff with
  | [] => st
  | line :: diff' => align_loop filename (i + 1) diff' (align_step filename st i line)
  end.

(** The arguments of the calls of [parse_line] that [multidiff] makes for
    one file: line number, diff line, file name and squigly line.  The
    dictionary [local_diff] is walked in the order its keys were inserted;
    the lists of different line numbers do not depend on that order. *)
Definition parse_calls (filename : string) (diff : list string)
    : list (Z * string * string * string) :=
  let st := align_loop filename 0 diff align_init in
  '(line_no, entries) ← local_diff st;
  '(line, filename) ← entries;
  [(line_no, line, filename,
    Py.rstrip (default "" (squigly_dict st !! Some line)))].

Fixpoint parse_all (mdiff : MultiDiff)
    (calls : list (Z * string * string * string)) : result MultiDiff :=
  match calls with
  | [] => Ok mdiff
  | (line_no, line, filename, squigly) :: calls' =>
      mdiff ← parse_line mdiff line_no line filename (Some squigly);
      parse_all mdiff calls'
  end.

(** The loop of [multidiff] over the files; each file comes with the lines
    [difflib.Differ().compare] gives for it against the base. *)
Fixpoint parse_files (mdiff : MultiDiff) (diffs : list (string * list string))
    : result MultiDiff :=
  match diffs with
  | [] => Ok mdiff
  | (filepath, diff) :: diffs' =>
      mdiff ← parse_all mdiff (parse_calls (Py.basename filepath) diff);
      parse_files mdiff diffs'
  end.

(** [multidiff]: [base_lines] are the lines of the base file and [diffs]
    pairs every file path with its diff against the base. *)
Definition multidiff `{SO : Py.SetOrder} (base : string)
    (base_lines : list string) (diffs : list (string * list string))
    (colored : bool) (term_width : Z) : result string :=
  mdiff ← parse_files (init base base_lines (diffs.*1) colored) diffs;
  to_str mdiff term_width.

(** ** The diff of two line sequences, as [difflib] tags it *)

(** [tagged cand base_lines diff]: the lines of [diff] starting with two
    spaces are common, those starting with [- ] are the remaining lines of
    the candidate, those starting with [+ ] the remaining lines of the
    base, and lines starting with [?] are guides. *)
Inductive tagged : list string → list string → list string → Prop :=
  | tagged_nil : tagged [] [] []
  | tagged_common x a b d :
      tagged a b d → tagged (x :: a) (x :: b) (("  " ++ x) :: d)
  | tagged_minus x a b d :
      tagged a b d → tagged (x :: a) b (("- " ++ x) :: d)
  | tagged_plus x a b d :
      tagged a b d → tagged a (x :: b) (("+ " ++ x) :: d)
  | tagged_guide g a b d :
      tagged a b d → tagged a b (("? " ++ g) :: d).

(** An enumeration order to run examples with. *)
Definition elements_order : Py.SetOrder :=
  {| Py.set_iter := elements; Py.set_iter_perm := λ X, reflexivity _ |}.

(** ** Notions the properties are stated with *)

(** The tuples registered for a line number and a key. *)
Definition tuples_at (self : MultiDiff) (line_no : Z) (key : ascii) : list change :=
  default [] (default ∅ (diff_info self !! line_no) !! key).

(** What [multidiff] keeps true of the changes it registers: they stand
    at line numbers from 1 on, and no text is empty. *)
Definition well_registered (self : MultiDiff) : Prop :=
  ∀ (line_no : Z) (key : ascii) (c : change),
    c ∈ tuples_at self line_no key → 1 ≤ line_no ∧ c.1.1 ≠ "".

(** The distinct texts among some tuples, and the files contributing a
    given text. *)
Definition texts (tuples : list change) : gset string :=
  list_to_set ((λ c : change, c.1.1) <$> tuples).

Definition candidates (tuples : list change) (text : string) : gset string :=
  list_to_set ((λ c : change, c.1.2)
                 <$> filter (λ c : change, c.1.1 = text) tuples).



(** What one character of the base of a merge becomes against the
    character of the other squigly line at the same place. *)
Definition merge_char (o b : ascii) : ascii :=
  if bool_decide (b ∈ [HAT; SPACE]) && bool_decide (b ≠ o) then o else b.

(** The base with the other line laid over its first characters. *)
Fixpoint overlay (other base : list ascii) : list ascii :=
  match other, base with
  | o :: other', b :: base' => merge_char o b :: overlay other' base'
  | _, _ => base
  end.

(** The merge as the specification words it: the base is the longest of
    the two lines and, when they are as long, the one that came later,
    [squigly1] being the later line and [squigly2] what was merged so far. *)
Definition merge_squigly_spec (squigly1 squigly2 : string) : string :=
  let sq1 := Py.chars squigly1 in
  let sq2 := Py.chars squigly2 in
  if (length sq2 <=? length sq1)%nat then Py.str (overlay sq2 sq1)
  else Py.str (overlay sq1 sq2).

(** * Properties *)

(** ** Strings *)

Lemma chars_str (l : list ascii) : Py.chars (Py.str l) = l.
Proof. apply list_ascii_of_string_of_list_ascii. Qed.

Lemma str_chars (s : string) : Py.str (Py.chars s) = s.
Proof. apply string_of_list_ascii_of_string. Qed.

Lemma length_chars (s : string) : length (Py.chars s) = String.length s.
Proof. induction s as [|c s IH]; simpl; [done | by rewrite IH]. Qed.

Lemma length_str (l : list ascii) : String.length (Py.str l) = length l.
Proof. by rewrite <- length_chars, chars_str. Qed.

Lemma append_cons (c : ascii) (s t : string) :
  String c s ++ t = String c (s ++ t).
Proof. reflexivity. Qed.

Lemma length_append (s t : string) :
  String.length (s ++ t) = (String.length s + String.length t)%nat.
Proof.
  induction s as [|c s IH]; [done |].
  rewrite append_cons. simpl. by rewrite IH.
Qed.

Lemma len_append (s t : string) : Py.len (s ++ t) = Py.len s + Py.len t.
Proof. unfold Py.len. rewrite length_append. lia. Qed.

(** ** Colors *)

(** C10: when color output is disabled, [colorize] and [color_line] hand
    the line back unchanged, whatever the squigly line (a string, the empty
    string or [None]) and whatever the color. *)
Theorem colorize_uncolored (self : MultiDiff) (line color : string)
    (squigly : option string) :
  colored self = false →
  colorize self line squigly = Ok line ∧ color_line self line color = line.
Proof.
  intros Hc. unfold colorize, color_line. by rewrite Hc.
Qed.

Lemma colorize_uncolored_witness :
  colorize (init "base.txt" ["foo"] ["a.txt"] false) "- foo" (Some "? ^") = Ok "- foo"
  ∧ color_line (init "base.txt" ["foo"] ["a.txt"] false) "- foo" PURPLE = "- foo".
Proof.
  apply (colorize_uncolored (init "base.txt" ["foo"] ["a.txt"] false)).
  reflexivity.
Defined.

(** ** Registering a line *)

Lemma startswith_char (c key : ascii) (rest : string) :
  Py.startswith (String c "") (String key rest) = bool_decide (c = key).
Proof.
  unfold Py.startswith. cbn [String.prefix].
  destruct (ascii_dec c key) as [Heq | Hne].
  - rewrite bool_decide_eq_true_2 by done. by destruct rest.
  - by rewrite bool_decide_eq_false_2.
Qed.

Lemma first_char_kind (key : ascii) (rest : string) :
  key ∈ [MINUS; PLUS] ↔
  Py.startswith "-" (String key rest) = true
  ∨ Py.startswith "+" (String key rest) = true.
Proof.
  rewrite !startswith_char, !bool_decide_eq_true.
  rewrite !elem_of_cons, elem_of_nil. unfold MINUS, PLUS.
  split; [intros [-> | [-> | []]]; auto | intros [<- | <-]; auto].
Qed.

(** C7: [parse_line] raises exactly when the line starts with neither [-]
    nor [+]; a line starting with one of them is appended to the tuples of
    its line number and key, every other entry of [diff_info] and every
    other attribute staying as it was. *)
Theorem parse_line_spec (self : MultiDiff) (line_no : Z)
    (diff_line meta : string) (squigly_line : option string) :
  (raises (parse_line self line_no diff_line meta squigly_line) ↔
   ¬ (Py.startswith "-" diff_line = true ∨ Py.startswith "+" diff_line = true))
  ∧ ∀ key rest, diff_line = String key rest → key ∈ [MINUS; PLUS] →
      ∃ self',
        parse_line self line_no diff_line meta squigly_line = Ok self'
        ∧ tuples_at self' line_no key
          = (tuples_at self line_no key
             ++ [(Py.rstrip diff_line, meta, squigly_line)])%list
        ∧ (∀ key', key' ≠ key →
             default ∅ (diff_info self' !! line_no) !! key'
             = default ∅ (diff_info self !! line_no) !! key')
        ∧ (∀ line_no', line_no' ≠ line_no →
             diff_info self' !! line_no' = diff_info self !! line_no')
        ∧ base self' = base self ∧ base_lines self' = base_lines self
        ∧ files self' = files self ∧ colored self' = colored self.
Proof.
  split.
  - destruct diff_line as [|key rest].
    + simpl. split; [intros _ [H | H]; discriminate | done].
    + rewrite <- first_char_kind. unfold parse_line.
      case_bool_decide; simpl; tauto.
  - intros key rest -> Hkey. unfold parse_line.
    rewrite bool_decide_eq_true_2 by done. simpl.
    eexists. split; [done |]. unfold tuples_at. simpl.
    rewrite lookup_insert_eq. simpl. rewrite lookup_insert_eq. simpl.
    repeat split; try done.
    + intros key' Hne. by rewrite lookup_insert_ne.
    + intros line_no' Hne. by rewrite lookup_insert_ne.
Qed.

(** ** Long lines *)

Lemma append_assoc (s t u : string) : (s ++ t) ++ u = s ++ t ++ u.
Proof.
  induction s as [|c s IH]; [done |]. by rewrite !append_cons, IH.
Qed.

Lemma len_slice_to (k : Z) (s : string) :
  0 ≤ k ≤ Py.len s → Py.len (Py.slice_to k s) = k.
Proof.
  unfold Py.len, Py.slice_to. intros [H0 Hk].
  rewrite (proj2 (Z.leb_le 0 k)) by done.
  rewrite length_str, length_take_le; [lia |].
  rewrite length_chars. lia.
Qed.

(** C4, amended: a line longer than a width of at least three characters
    becomes its first [width - 3] characters followed by the ellipsis,
    [width] characters in all, when color output is disabled; when it is
    enabled the color reset stands between the two, and the line has the
    four characters of the reset more. *)
Theorem limit_long (self : MultiDiff) (text : string) (width : Z) :
  Py.len END_LONG_LINE ≤ width → width < Py.len text →
  limit self text width
  = Py.slice_to (width - Py.len END_LONG_LINE) text
    ++ (if colored self then END_COLOR else "") ++ END_LONG_LINE
  ∧ Py.len (limit self text width)
    = width + (if colored self then Py.len END_COLOR else 0).
Proof.
  intros Hw Hlong. unfold limit.
  rewrite (proj2 (Z.ltb_lt _ _)) by done. cbv zeta.
  assert (Py.len END_LONG_LINE = 3) as Hdots by done.
  assert (Py.len (Py.slice_to (width - Py.len END_LONG_LINE) text)
          = width - Py.len END_LONG_LINE) as Hres
    by (apply len_slice_to; lia).
  destruct (colored self).
  - rewrite append_assoc. split; [done |].
    rewrite !len_append, Hres. lia.
  - split; [done |]. rewrite len_append, Hres. lia.
Qed.

Lemma limit_long_witness :
  limit (init "base.txt" [] [] true) "1 - abcdefgh (1/1)" 10
  = Py.slice_to (10 - Py.len END_LONG_LINE) "1 - abcdefgh (1/1)"
    ++ END_COLOR ++ END_LONG_LINE
  ∧ Py.len (limit (init "base.txt" [] [] true) "1 - abcdefgh (1/1)" 10)
    = 10 + Py.len END_COLOR.
Proof.
  apply (limit_long (init "base.txt" [] [] true) "1 - abcdefgh (1/1)" 10);
    vm_compute; [discriminate | reflexivity].
Defined.

(** C4 as stated fails: with colors the shortened line has more than
    [width] characters, and so has any line cut to a width under three. *)
Lemma limit_counterexample :
  Py.len (limit (init "base.txt" [] [] true) "1 - abcdefgh (1/1)" 10) = 14
  ∧ Py.len (limit (init "base.txt" [] [] false) "1 - abcdefgh (1/1)" 2) = 20.
Proof. split; reflexivity. Qed.

(** ** Merging squigly lines *)

Lemma merge_loop_out_of_range (other base : list ascii) (i : nat) :
  (length base ≤ i)%nat → merge_loop i other base = base.
Proof.
  revert i. induction other as [|o other IH]; intros i Hi; simpl; [done |].
  rewrite lookup_ge_None_2 by done. apply IH. lia.
Qed.

Lemma merge_loop_overlay (other pre base : list ascii) :
  merge_loop (length pre) other (pre ++ base)%list
  = (pre ++ overlay other base)%list.
Proof.
  revert pre base. induction other as [|o other IH]; intros pre base; simpl.
  { by destruct base. }
  destruct base as [|b base].
  - rewrite lookup_ge_None_2 by (rewrite length_app; simpl; lia).
    apply merge_loop_out_of_range. rewrite length_app. simpl. lia.
  - rewrite list_lookup_middle by done.
    replace (if bool_decide (b ∈ [HAT; SPACE]) && bool_decide (b ≠ o)
             then <[length pre := o]> (pre ++ b :: base)%list
             else (pre ++ b :: base)%list)
      with ((pre ++ [merge_char o b]) ++ base)%list.
    + replace (S (length pre)) with (length (pre ++ [merge_char o b])%list)
        by (rewrite length_app; simpl; lia).
      rewrite IH. by rewrite <- app_assoc.
    + unfold merge_char.
      destruct (bool_decide (b ∈ [HAT; SPACE]) && bool_decide (b ≠ o)).
      * rewrite insert_app_r_alt by done. rewrite Nat.sub_diag. simpl.
        by rewrite <- app_assoc.
      * by rewrite <- app_assoc.
Qed.

Lemma merge_squigly_overlay (squigly1 squigly2 : string) :
  merge_squigly squigly1 squigly2
  = if (String.length squigly2 <? String.length squigly1)%nat
    then Py.str (overlay (Py.chars squigly2) (Py.chars squigly1))
    else Py.str (overlay (Py.chars squigly1) (Py.chars squigly2)).
Proof.
  unfold merge_squigly. rewrite !length_chars.
  destruct (String.length squigly2 <? String.length squigly1)%nat;
    f_equal; apply (merge_loop_overlay _ []).
Qed.

Lemma length_overlay (other base : list ascii) :
  length (overlay other base) = length base.
Proof.
  revert base. induction other as [|o other IH]; intros [|b base]; simpl;
    by rewrite ?IH.
Qed.

Lemma lookup_overlay (other base : list ascii) (i : nat) (b : ascii) :
  base !! i = Some b →
  overlay other base !! i
  = Some (match other !! i with Some o => merge_char o b | None => b end).
Proof.
  revert base i. induction other as [|o other IH]; intros [|c base] i; simpl;
    try done.
  destruct i as [|i]; simpl; [by intros [= ->] | apply IH].
Qed.

Lemma merge_char_weak (o b : ascii) :
  merge_char o b = if bool_decide (b ∈ [HAT; SPACE]) then o else b.
Proof.
  unfold merge_char. destruct (bool_decide (b ∈ [HAT; SPACE])); simpl; [|done].
  case_bool_decide as Hne; [done | by subst].
Qed.

Lemma merge_char_assoc (a b c : ascii) :
  merge_char (merge_char a b) c = merge_char a (merge_char b c).
Proof.
  rewrite !merge_char_weak.
  destruct (bool_decide (c ∈ [HAT; SPACE])) eqn:Hc; [done | by rewrite Hc].
Qed.

Lemma overlay_assoc (a b c : list ascii) :
  length a = length b → length b = length c →
  overlay (overlay a b) c = overlay a (overlay b c).
Proof.
  revert b c. induction a as [|x a IH]; intros [|y b] [|z c]; simpl; try done.
  intros [= Hab] [= Hbc]. by rewrite merge_char_assoc, IH.
Qed.

(** C8: for squigly lines of one length the merge is associative. *)
Theorem merge_squigly_assoc (m1 m2 m3 : string) :
  String.length m1 = String.length m2 →
  String.length m2 = String.length m3 →
  merge_squigly (merge_squigly m1 m2) m3
  = merge_squigly m1 (merge_squigly m2 m3).
Proof.
  intros H12 H23.
  assert (∀ s t, String.length s = String.length t →
            merge_squigly s t = Py.str (overlay (Py.chars s) (Py.chars t)))
    as Heq.
  { intros s t Hst. rewrite merge_squigly_overlay, Hst.
    by rewrite Nat.ltb_irrefl. }
  rewrite (Heq m1 m2), (Heq m2 m3) by done.
  rewrite (Heq _ m3)
    by (rewrite length_str, length_overlay, length_chars; congruence).
  rewrite (Heq m1 _)
    by (rewrite length_str, length_overlay, length_chars; congruence).
  rewrite !chars_str. f_equal. apply overlay_assoc; by rewrite !length_chars.
Qed.

Lemma merge_squigly_assoc_witness :
  merge_squigly (merge_squigly "? ^^ " "?  ^-") "? +  "
  = merge_squigly "? ^^ " (merge_squigly "?  ^-" "? +  ").
Proof. apply merge_squigly_assoc; reflexivity. Defined.

(** C5, amended: in the loop of [get_line] a non-empty squigly line is
    merged with what was merged so far for the same text (itself, the first
    time).  The base is the new line only when it is strictly longer; when
    both are as long the base is what was merged so far, the earlier one.
    The result has the length of the base, and a character of the base is
    replaced by the character of the other line at the same place exactly
    when it is a space or a hat and differs from it. *)
Theorem scan_step_squigly (lines : gset string)
    (changes_dict : gmap string (gset string))
    (squigly_dict : gmap string string) (diff_line meta squigly_line : string) :
  squigly_line ≠ "" →
  let so_far := default squigly_line (squigly_dict !! diff_line) in
  let longer := (String.length so_far <? String.length squigly_line)%nat in
  let base := if longer then squigly_line else so_far in
  let other := if longer then so_far else squigly_line in
  ∃ merged,
    (scan_step (lines, changes_dict, squigly_dict)
               (diff_line, meta, Some squigly_line)).2 !! diff_line
    = Some merged
    ∧ merged = merge_squigly squigly_line so_far
    ∧ String.length merged = String.length base
    ∧ ∀ i b, Py.chars base !! i = Some b →
        Py.chars merged !! i
        = Some (match Py.chars other !! i with
                | Some o =>
                    if bool_decide ((b = SPACE ∨ b = HAT) ∧ b ≠ o) then o else b
                | None => b
                end).
Proof.
  intros Hne so_far longer base other.
  exists (merge_squigly squigly_line so_far).
  assert (truthy (Some squigly_line) = true) as Htruthy
    by (by destruct squigly_line).
  split; [|split; [done |]].
  { unfold scan_step. rewrite Htruthy. simpl. by rewrite lookup_insert_eq. }
  rewrite merge_squigly_overlay. fold longer.
  assert (∀ o b, merge_char o b
                 = if bool_decide ((b = SPACE ∨ b = HAT) ∧ b ≠ o) then o else b)
    as Hchar.
  { intros o b. unfold merge_char. rewrite bool_decide_and.
    rewrite (bool_decide_ext (b ∈ [HAT; SPACE]) (b = SPACE ∨ b = HAT)); [done |].
    rewrite !elem_of_cons, elem_of_nil. tauto. }
  unfold base, other. destruct longer.
  - rewrite length_str, length_overlay, length_chars. split; [done |].
    intros i b Hb. rewrite chars_str, (lookup_overlay _ _ _ _ Hb).
    destruct (Py.chars so_far !! i); by rewrite ?Hchar.
  - rewrite length_str, length_overlay, length_chars. split; [done |].
    intros i b Hb. rewrite chars_str, (lookup_overlay _ _ _ _ Hb).
    destruct (Py.chars squigly_line !! i); by rewrite ?Hchar.
Qed.

Lemma scan_step_squigly_witness :
  ∃ merged,
    (scan_step (∅, ∅, {[ "- foo" := "? ^^" ]})
               ("- foo", "b.txt", Some "?  ^")).2 !! "- foo"
    = Some merged
    ∧ merged = merge_squigly "?  ^" "? ^^"
    ∧ String.length merged = String.length "? ^^".
Proof.
  destruct (scan_step_squigly ∅ ∅ {[ "- foo" := "? ^^" ]} "- foo" "b.txt" "?  ^")
    as (merged & Hlookup & Hmerged & Hlength & _); [discriminate |].
  exists merged. split; [exact Hlookup |]. split; [exact Hmerged |].
  exact Hlength.
Defined.

(** C5 as stated fails: two squigly lines of one length for one text are
    merged on the earlier one, where the later one as base gives another
    result. *)
Lemma merge_ties_counterexample :
  (scan [("- foo", "a.txt", Some "? ^^");
         ("- foo", "b.txt", Some "?  ^")]).2 !! "- foo" = Some "?  ^"
  ∧ merge_squigly "?  ^" "? ^^" = "?  ^"
  ∧ merge_squigly_spec "?  ^" "? ^^" = "? ^^".
Proof. repeat split; vm_compute; reflexivity. Qed.

(** ** Sorting *)

Section sorted.
Context {A : Type} (key : A → nat).

Lemma insert_by_perm (x : A) (l : list A) : Py.insert_by key x l ≡ₚ x :: l.
Proof.
  induction l as [|y l IH]; simpl; [done |].
  destruct (key x <=? key y)%nat; [done |].
  rewrite IH. apply perm_swap.
Qed.

Lemma sorted_perm (l : list A) : Py.sorted key l ≡ₚ l.
Proof.
  induction l as [|x l IH]; simpl; [done |].
  by rewrite insert_by_perm, IH.
Qed.









End sorted.

(** ** Grouping *)

Lemma scan_snoc (tuples : list change) (c : change) :
  scan (tuples ++ [c]) = scan_step (scan tuples) c.
Proof. unfold scan. by rewrite fold_left_app. Qed.

Lemma texts_snoc (tuples : list change) (c : change) :
  texts (tuples ++ [c]) = texts tuples ∪ {[c.1.1]}.
Proof.
  unfold texts. rewrite fmap_app, list_to_set_app_L. simpl.
  by rewrite union_empty_r_L.
Qed.

Lemma candidates_snoc (tuples : list change) (c : change) (text : string) :
  candidates (tuples ++ [c]) text
  = candidates tuples text ∪ (if decide (c.1.1 = text) then {[c.1.2]} else ∅).
Proof.
  unfold candidates. rewrite filter_app, fmap_app, list_to_set_app_L.
  f_equal. rewrite filter_cons, filter_nil.
  case_decide; simpl; [by rewrite union_empty_r_L | done].
Qed.

Lemma candidates_unseen (tuples : list change) (text : string) :
  text ∉ texts tuples → candidates tuples text = ∅.
Proof.
  induction tuples as [|c tuples IH] using rev_ind; [done |].
  rewrite texts_snoc, candidates_snoc, not_elem_of_union.
  rewrite not_elem_of_singleton. intros [Hin Hne].
  rewrite IH by done. rewrite decide_False by done. by rewrite union_empty_r_L.
Qed.

Lemma scan_lines (tuples : list change) : (scan tuples).1.1 = texts tuples.
Proof.
  induction tuples as [|c tuples IH] using rev_ind; [done |].
  rewrite scan_snoc, texts_snoc, <- IH.
  destruct (scan tuples) as [[lines changes_dict] squigly_dict].
  by destruct c as [[diff_line meta] squigly_line].
Qed.

Lemma scan_changes (tuples : list change) (text : string) :
  (scan tuples).1.2 !! text
  = if decide (text ∈ texts tuples) then Some (candidates tuples text) else None.
Proof.
  induction tuples as [|c tuples IH] using rev_ind.
  { rewrite decide_False by set_solver. apply lookup_empty. }
  rewrite scan_snoc, texts_snoc, candidates_snoc.
  destruct (scan tuples) as [[lines changes_dict] squigly_dict].
  destruct c as [[diff_line meta] squigly_line]. simpl in *.
  destruct (decide (diff_line = text)) as [-> | Hne].
  - rewrite lookup_insert_eq, decide_True by set_solver. rewrite IH.
    case_decide; simpl; [done |]. by rewrite candidates_unseen.
  - rewrite lookup_insert_ne, IH, union_empty_r_L by done.
    apply decide_ext. set_solver.
Qed.

Lemma scan_num_files (tuples : list change) (text : string) :
  num_files_of (scan tuples).1.2 text = size (candidates tuples text).
Proof.
  unfold num_files_of. rewrite scan_changes. case_decide; simpl; [done |].
  by rewrite candidates_unseen.
Qed.

Section groups.
Context `{SO : Py.SetOrder}.

Lemma groups_for_eq (self : MultiDiff) (line_no : Z) (key : ascii) :
  groups_for self line_no key
  = take max_groups
      (rev (Py.sorted (λ text, size (candidates (tuples_at self line_no key) text))
                      (Py.set_iter (texts (tuples_at self line_no key))))).
Proof.
  unfold groups_for, select_lines. fold (tuples_at self line_no key).
  pose proof (scan_lines (tuples_at self line_no key)) as Hlines.
  pose proof (scan_num_files (tuples_at self line_no key)) as Hnum.
  destruct (scan (tuples_at self line_no key)) as [[lines changes_dict] sq].
  simpl in *. subst lines. do 2 f_equal.
  induction (Py.set_iter (texts (tuples_at self line_no key))) as [|x l IH];
    simpl; [done |].
  rewrite IH. clear IH.
  induction (Py.sorted _ l) as [|y r IHr]; simpl; [done |].
  by rewrite !Hnum, IHr.
Qed.


End groups.


Section ties.
Context `{SO : Py.SetOrder}.


End ties.




(** ** Alignment *)

Lemma setdefault_append_keys {V : Type} (k k' : Z) (v : V)
    (d : list (Z * list V)) :
  k' ∈ (setdefault_append k v d).*1 ↔ k' = k ∨ k' ∈ d.*1.
Proof.
  induction d as [|[k0 vs] d IH]; simpl.
  - rewrite list_elem_of_singleton, elem_of_nil. tauto.
  - case_bool_decide as Hk; simpl; rewrite !elem_of_cons.
    + subst k0. tauto.
    + rewrite IH. tauto.
Qed.

Lemma align_step_common (filename : string) (st : align_state) (i : Z)
    (x : string) :
  align_step filename st i ("  " ++ x) = st.
Proof.
  unfold align_step. change ("  " ++ x) with (String " " (String " " x)).
  by rewrite !startswith_char.
Qed.

Lemma align_step_minus (filename : string) (st : align_state) (i : Z)
    (x : string) :
  align_step filename st i ("- " ++ x)
  = {| local_diff :=
         setdefault_append (i + compensator st) ("- " ++ x, filename)
                           (local_diff st);
       squigly_dict := squigly_dict st;
       last_added := Some ("- " ++ x);
       compensator := compensator st - 1 |}.
Proof.
  unfold align_step. change ("- " ++ x) with (String "-" (String " " x)).
  by rewrite !startswith_char.
Qed.

Lemma align_step_plus (filename : string) (st : align_state) (i : Z)
    (x : string) :
  align_step filename st i ("+ " ++ x)
  = {| local_diff :=
         setdefault_append (i + compensator st) ("+ " ++ x, filename)
                           (local_diff st);
       squigly_dict := squigly_dict st;
       last_added := Some ("+ " ++ x);
       compensator := compensator st |}.
Proof.
  unfold align_step. change ("+ " ++ x) with (String "+" (String " " x)).
  by rewrite !startswith_char.
Qed.

Lemma align_step_guide (filename : string) (st : align_state) (i : Z)
    (g : string) :
  align_step filename st i ("? " ++ g)
  = {| local_diff := local_diff st;
       squigly_dict := <[last_added st := "? " ++ g]> (squigly_dict st);
       last_added := last_added st;
       compensator := compensator st - 1 |}.
Proof.
  unfold align_step. change ("? " ++ g) with (String "?" (String " " g)).
  by rewrite !startswith_char.
Qed.

(** The line numbers the loop adds lie between the position it starts at
    and that position plus the number of base lines still to come. *)
Lemma align_loop_keys (filename : string) (cand base_lines diff : list string) :
  tagged cand base_lines diff →
  ∀ (st : align_state) (i n : Z),
    n ∈ (local_diff (align_loop filename i diff st)).*1 →
    n ∈ (local_diff st).*1
    ∨ i + compensator st ≤ n ≤ i + compensator st + Z.of_nat (length base_lines).
Proof.
  induction 1 as [|x a b d Ht IH|x a b d Ht IH|x a b d Ht IH|g a b d Ht IH];
    intros st i n Hn; simpl in Hn.
  - by left.
  - rewrite align_step_common in Hn.
    apply IH in Hn as [Hn | Hn]; [by left | right].
    simpl length. lia.
  - rewrite align_step_minus in Hn.
    apply IH in Hn as [Hn | Hn]; simpl in Hn.
    + apply setdefault_append_keys in Hn as [-> | Hn]; [right; lia | by left].
    + right. lia.
  - rewrite align_step_plus in Hn.
    apply IH in Hn as [Hn | Hn]; simpl in Hn.
    + apply setdefault_append_keys in Hn as [-> | Hn]; [| by left].
      right. simpl length. lia.
    + right. simpl length. lia.
  - rewrite align_step_guide in Hn.
    apply IH in Hn as [Hn | Hn]; simpl in Hn; [by left | right; lia].
Qed.

(** What the alignment does guarantee: the line numbers passed to
    [parse_line] count the base lines from 1, and a removal after the last
    base line gets the number after the last. *)
Lemma parse_calls_range (filename : string) (cand base_lines diff : list string)
    (line_no : Z) (line meta squigly : string) :
  tagged cand base_lines diff →
  (line_no, line, meta, squigly) ∈ parse_calls filename diff →
  1 ≤ line_no ≤ Z.of_nat (length base_lines) + 1.
Proof.
  intros Ht Hin. unfold parse_calls in Hin.
  apply list_elem_of_bind in Hin as ([n entries] & Hin & Hentry).
  apply list_elem_of_bind in Hin as ([l f] & Hin & _).
  apply list_elem_of_singleton in Hin. injection Hin as -> _ _ _.
  assert (n ∈ (local_diff (align_loop filename 0 diff align_init)).*1) as Hn.
  { by apply (list_elem_of_fmap_2 fst _ (n, entries)). }
  apply (align_loop_keys _ _ _ _ Ht) in Hn as [Hn | Hn]; simpl in Hn.
  - by apply elem_of_nil in Hn.
  - lia.
Qed.

(** ** Rendering *)

Section rendering.
Context `{SO : Py.SetOrder}.

Lemma set_iter_empty : Py.set_iter ∅ = [].
Proof.
  apply Permutation_nil_r. rewrite Py.set_iter_perm. by rewrite elements_empty.
Qed.

Lemma set_iter_singleton (x : string) : Py.set_iter {[x]} = [x].
Proof.
  apply Permutation_singleton_r. rewrite Py.set_iter_perm.
  by rewrite elements_singleton.
Qed.

Lemma render_key_no_tuples (self : MultiDiff) (line_no : Z) (key : ascii) :
  tuples_at self line_no key = [] → render_key self line_no key = Ok [].
Proof.
  unfold tuples_at, render_key. intros ->. simpl.
  unfold select_lines. by rewrite set_iter_empty.
Qed.

(** A line number without changes gives no line, not even a separator. *)
Lemma get_line_no_diff (self : MultiDiff) (line_no : Z) :
  diff_info self !! line_no = None → get_line self line_no = Ok [].
Proof.
  intros Hnone. unfold get_line.
  rewrite !render_key_no_tuples by (unfold tuples_at; by rewrite Hnone).
  simpl. unfold has_diff. rewrite Hnone. simpl.
  by rewrite bool_decide_eq_false_2 by (intros Hne; by apply Hne).
Qed.

Lemma str_loop_no_diff (self : MultiDiff) (term_width : Z) (line_nos : list Z)
    (st : list string * bool) :
  (∀ i, i ∈ line_nos → diff_info self !! i = None) →
  str_loop self term_width line_nos st = Ok st.
Proof.
  induction line_nos as [|i line_nos IH]; intros Hnone; simpl; [done |].
  rewrite get_line_no_diff by (apply Hnone; left). simpl.
  apply IH. intros j Hj. apply Hnone. by right.
Qed.

End rendering.

Section report.
Context `{SO : Py.SetOrder}.

(** Without changes at the line numbers [__str__] walks, the report is the
    header, a rule, [(no diff)] and a rule. *)
Lemma str_output_no_diff (self : MultiDiff) (term_width : Z) :
  (∀ i, 0 ≤ i < Z.of_nat (length (base_lines self)) →
        diff_info self !! i = None) →
  str_output self term_width
  = Ok ["Comparing " ++ color_line self (Py.basename (base self)) PURPLE
          ++ " with " ++ Py.join ", " (Py.basename <$> files self);
        "====="; "(no diff)"; "====="].
Proof.
  intros Hnone. unfold str_output. rewrite str_loop_no_diff; [done |].
  intros i Hi. apply Hnone. unfold range in Hi.
  apply list_elem_of_fmap in Hi as (n & -> & Hn).
  apply elem_of_seq in Hn. lia.
Qed.

End report.

(** C1 fails on the code: for the base lines [foo], [bar] and a file with
    the lines [foo], [baz], whose diff is [  foo], [- baz], [+ bar], both
    changes are passed to [parse_line] with the line number 2, which is the
    number of base lines; [__str__] asks for the line numbers 0 and 1 only,
    and the report says there is no diff. *)
Theorem alignment_out_of_range :
  tagged ["foo"; "baz"] ["foo"; "bar"] ["  foo"; "- baz"; "+ bar"]
  ∧ parse_calls "a.txt" ["  foo"; "- baz"; "+ bar"]
    = [(2, "- baz", "a.txt", ""); (2, "+ bar", "a.txt", "")]
  ∧ ¬ (2 < Z.of_nat (length ["foo"; "bar"]))
  ∧ ∀ SO : Py.SetOrder,
      @multidiff SO "base.txt" ["foo"; "bar"]
        [("a.txt", ["  foo"; "- baz"; "+ bar"])] false 80
      = Ok (Py.join (String "010" "")
              ["Comparing base.txt with a.txt"; "====="; "(no diff)"; "====="]).
Proof.
  split; [| split; [| split]].
  - apply (tagged_common "foo"), (tagged_minus "baz"), (tagged_plus "bar").
    apply tagged_nil.
  - vm_compute. reflexivity.
  - simpl. lia.
  - intros SO. unfold multidiff.
    assert (parse_files (init "base.txt" ["foo"; "bar"] ["a.txt"] false)
              [("a.txt", ["  foo"; "- baz"; "+ bar"])]
            = Ok (set_diff_info (init "base.txt" ["foo"; "bar"] ["a.txt"] false)
                    {[ 2 := {[ MINUS := [("- baz", "a.txt", Some "")];
                               PLUS := [("+ bar", "a.txt", Some "")] ]} ]}))
      as Hparsed by (vm_compute; reflexivity).
    simpl fmap. rewrite Hparsed. simpl. unfold to_str.
    rewrite str_output_no_diff; [vm_compute; reflexivity |].
    intros i Hi. simpl in *. apply lookup_singleton_ne. lia.
Qed.

Section single.
Context `{SO : Py.SetOrder}.

(** One tuple under a key: its text is the one line rendered. *)
Lemma render_key_single (self : MultiDiff) (line_no : Z) (key : ascii)
    (c : change) :
  tuples_at self line_no key = [c] →
  render_key self line_no key
  = render_lines self line_no (scan [c]).1.2 (scan [c]).2 [c.1.1].
Proof.
  unfold tuples_at, render_key. intros ->.
  pose proof (scan_lines [c]) as Hlines.
  destruct (scan [c]) as [[lines changes_dict] squigly_dict]. simpl in *.
  subst lines. unfold select_lines, texts. simpl.
  by rewrite union_empty_r_L, set_iter_singleton.
Qed.

Lemma int_log10_positive (n : Z) : 0 < n → ∃ k, Py.int_log10 n = Ok k.
Proof.
  intros Hn. unfold Py.int_log10.
  rewrite (proj2 (Z.leb_gt n 0)) by done. eauto.
Qed.

Lemma render_line_uncolored (self : MultiDiff) (line_no : Z)
    (changes_dict : gmap string (gset string))
    (squigly_dict : gmap string string) (diff_line : string) :
  colored self = false → 0 < line_no →
  ∃ out, render_line self line_no changes_dict squigly_dict diff_line = Ok out.
Proof.
  intros Hc Hn. unfold render_line, colorize. rewrite Hc.
  destruct (int_log10_positive line_no Hn) as [k Hk].
  destruct (default "" (squigly_dict !! diff_line)); simpl; [eauto |].
  rewrite Hk. simpl. eauto.
Qed.

Lemma render_lines_uncolored (self : MultiDiff) (line_no : Z)
    (changes_dict : gmap string (gset string))
    (squigly_dict : gmap string string) (lines : list string) :
  colored self = false → 0 < line_no →
  ∃ out, render_lines self line_no changes_dict squigly_dict lines = Ok out.
Proof.
  intros Hc Hn. induction lines as [|diff_line lines [rest IH]]; simpl;
    [eauto |].
  destruct (render_line_uncolored self line_no changes_dict squigly_dict
              diff_line Hc Hn) as [out ->].
  rewrite IH. simpl. eauto.
Qed.

(** Away from line number 0 the uncolored [get_line] does not raise. *)
Lemma get_line_uncolored (self : MultiDiff) (line_no : Z) :
  colored self = false → 0 < line_no →
  ∃ out, get_line self line_no = Ok out.
Proof.
  intros Hc Hn. unfold get_line, render_key.
  destruct (scan _) as [[lines1 cd1] sd1].
  destruct (render_lines_uncolored self line_no cd1 sd1
              (select_lines lines1 cd1) Hc Hn) as [out1 ->]. simpl.
  destruct (scan _) as [[lines2 cd2] sd2].
  destruct (render_lines_uncolored self line_no cd2 sd2
              (select_lines lines2 cd2) Hc Hn) as [out2 ->]. simpl.
  eauto.
Qed.

End single.

(** C2 fails on the code: with color output disabled, a change registered
    at line number 0 with a squigly line makes [get_line] raise the
    [ValueError] of [math.log10(0)]. *)
Theorem get_line_zero_raises :
  ∀ SO : Py.SetOrder,
    ∃ self,
      parse_line (init "base.txt" ["foo"] ["a.txt"] false)
                 0 "- foo" "a.txt" (Some "? ^")
      = Ok self
      ∧ colored self = false
      ∧ tuples_at self 0 MINUS = [("- foo", "a.txt", Some "? ^")]
      ∧ @get_line SO self 0 = Err ValueError.
Proof.
  intros SO. eexists. split; [vm_compute; reflexivity |].
  split; [reflexivity |].
  assert (tuples_at
            (set_diff_info (init "base.txt" ["foo"] ["a.txt"] false)
               {[ 0 := {[ MINUS := [("- foo", "a.txt", Some "? ^")] ]} ]})
            0 MINUS
          = [("- foo", "a.txt", Some "? ^")]) as Htuples
    by (vm_compute; reflexivity).
  split; [exact Htuples |].
  unfold get_line. rewrite (render_key_single _ _ _ _ Htuples).
  vm_compute. reflexivity.
Qed.

Section separators.
Context `{SO : Py.SetOrder}.

(** What [get_line] returns ends with the separator exactly when changes
    are registered at the line number and none at the next one. *)
Lemma get_line_separator (self : MultiDiff) (line_no : Z) (out : list string) :
  get_line self line_no = Ok out →
  ∃ removals additions,
    render_key self line_no MINUS = Ok removals
    ∧ render_key self line_no PLUS = Ok additions
    ∧ out = (removals ++ additions
             ++ (if has_diff self line_no && negb (has_diff self (line_no + 1))
                 then separator else []))%list.
Proof.
  unfold get_line. intros Hout.
  destruct (render_key self line_no MINUS) as [removals |]; [| done].
  destruct (render_key self line_no PLUS) as [additions |]; [| done].
  simpl in Hout. injection Hout as <-. eauto.
Qed.

End separators.

(** C9 fails on the code: for the base lines [a], [b] and a file with the
    one line [c], whose diff is [- c], [+ a], [+ b], line number 1 is the
    only one producing output and the last one walked, and no separator
    follows its lines, a change being registered at line number 2. *)
Theorem separator_missing_at_end :
  tagged ["c"] ["a"; "b"] ["- c"; "+ a"; "+ b"]
  ∧ ∀ SO : Py.SetOrder,
      ∃ mdiff,
        parse_files (init "base.txt" ["a"; "b"] ["a.txt"] false)
                    [("a.txt", ["- c"; "+ a"; "+ b"])]
        = Ok mdiff
        ∧ @get_line SO mdiff 0 = Ok []
        ∧ @get_line SO mdiff 1 = Ok ["1 - c (1/1)"; "1 + a (1/1)"]
        ∧ has_diff mdiff 2 = true
        ∧ @str_output SO mdiff 80
          = Ok ["Comparing base.txt with a.txt"; "=====";
                Py.join (String "010" "") ["1 - c (1/1)"; "1 + a (1/1)"];
                "====="].
Proof.
  split.
  { apply (tagged_minus "c"), (tagged_plus "a"), (tagged_plus "b").
    apply tagged_nil. }
  intros SO.
  set (mdiff :=
         set_diff_info (init "base.txt" ["a"; "b"] ["a.txt"] false)
           {[ 1 := {[ MINUS := [("- c", "a.txt", Some "")];
                      PLUS := [("+ a", "a.txt", Some "")] ]};
              2 := {[ PLUS := [("+ b", "a.txt", Some "")] ]} ]}).
  exists mdiff.
  assert (get_line mdiff 0 = Ok []) as H0
    by (apply get_line_no_diff; vm_compute; reflexivity).
  assert (get_line mdiff 1 = Ok ["1 - c (1/1)"; "1 + a (1/1)"]) as H1.
  { unfold get_line.
    rewrite (render_key_single mdiff 1 MINUS ("- c", "a.txt", Some ""))
      by (vm_compute; reflexivity).
    rewrite (render_key_single mdiff 1 PLUS ("+ a", "a.txt", Some ""))
      by (vm_compute; reflexivity).
    vm_compute. reflexivity. }
  split; [vm_compute; reflexivity |].
  split; [exact H0 |]. split; [exact H1 |].
  split; [vm_compute; reflexivity |].
  unfold str_output.
  change (range (length (base_lines mdiff))) with [0; 1].
  unfold str_loop. rewrite H0. simpl. rewrite H1. vm_compute. reflexivity.
Qed.

(** * Further properties of the module *)

(** ** The report *)

(** X1: whatever is registered at other line numbers, without changes at
    the line numbers from [0] below the number of base lines the report is
    the header, a rule, [(no diff)] and a rule. *)
Theorem report_without_changes `{SO : Py.SetOrder} (self : MultiDiff)
    (term_width : Z) :
  (∀ i, 0 ≤ i < Z.of_nat (length (base_lines self)) →
        diff_info self !! i = None) →
  to_str self term_width
  = Ok (Py.join (String "010" "")
          ["Comparing " ++ color_line self (Py.basename (base self)) PURPLE
             ++ " with " ++ Py.join ", " (Py.basename <$> files self);
           "====="; "(no diff)"; "====="]).
Proof.
  intros Hnone. unfold to_str. by rewrite str_output_no_diff.
Qed.

Lemma report_without_changes_witness :
  @to_str elements_order
    (set_diff_info (init "/tmp/base.txt" ["foo"; "bar"] ["/tmp/a.txt"] false)
       {[ 2 := {[ PLUS := [("+ bar", "a.txt", Some "")] ]} ]}) 80
  = Ok (Py.join (String "010" "")
          ["Comparing base.txt with a.txt"; "====="; "(no diff)"; "====="]).
Proof.
  apply (@report_without_changes elements_order
           (set_diff_info
              (init "/tmp/base.txt" ["foo"; "bar"] ["/tmp/a.txt"] false)
              {[ 2 := {[ PLUS := [("+ bar", "a.txt", Some "")] ]} ]}) 80).
  intros i Hi. simpl in Hi. apply lookup_singleton_ne. lia.
Defined.

(** X2: with no file to compare, [multidiff] reports no diff for every
    base. *)
Theorem multidiff_without_files `{SO : Py.SetOrder} (base : string)
    (base_lines : list string) (colored : bool) (term_width : Z) :
  multidiff base base_lines [] colored term_width
  = Ok (Py.join (String "010" "")
          ["Comparing "
             ++ color_line (init base base_lines [] colored)
                           (Py.basename base) PURPLE
             ++ " with ";
           "====="; "(no diff)"; "====="]).
Proof.
  unfold multidiff. simpl. unfold to_str.
  rewrite str_output_no_diff; [done |].
  intros i _. apply lookup_empty.
Qed.

(** ** The alignment *)

(** X3: for the diff of a file against the base, every line number passed
    to [parse_line] lies between 1 and the number of base lines plus 1. *)
Theorem alignment_line_numbers (filename : string)
    (cand base_lines diff : list string) (line_no : Z)
    (line meta squigly : string) :
  tagged cand base_lines diff →
  (line_no, line, meta, squigly) ∈ parse_calls filename diff →
  1 ≤ line_no ≤ Z.of_nat (length base_lines) + 1.
Proof. apply parse_calls_range. Qed.

Lemma alignment_line_numbers_witness :
  1 ≤ 2 ≤ Z.of_nat (length ["x"]) + 1.
Proof.
  apply (alignment_line_numbers "a.txt" ["x"; "y"] ["x"] ["  x"; "- y"]
           2 "- y" "a.txt" "").
  - apply (tagged_common "x"), (tagged_minus "y"), tagged_nil.
  - vm_compute. left.
Defined.

Lemma align_loop_common (filename : string) (lines : list string)
    (st : align_state) (i : Z) :
  align_loop filename i ((λ x, "  " ++ x) <$> lines) st = st.
Proof.
  revert i. induction lines as [|x lines IH]; intros i; simpl; [done |].
  by rewrite align_step_common.
Qed.

(** X4: a file with the lines of the base, whose diff has common lines
    only, has nothing passed to [parse_line]. *)
Theorem identical_file_no_calls (filename : string) (lines : list string) :
  parse_calls filename ((λ x, "  " ++ x) <$> lines) = [].
Proof. unfold parse_calls. by rewrite align_loop_common. Qed.

(** ** Line information *)

(** X5: for a line number without registered changes [get_line] returns
    the empty list, with no separator. *)
Theorem get_line_without_changes `{SO : Py.SetOrder} (self : MultiDiff)
    (line_no : Z) :
  diff_info self !! line_no = None → get_line self line_no = Ok [].
Proof. apply get_line_no_diff. Qed.

Lemma get_line_without_changes_witness :
  @get_line elements_order
    (set_diff_info (init "base.txt" ["foo"; "bar"] ["a.txt"] true)
       {[ 2 := {[ PLUS := [("+ bar", "a.txt", Some "")] ]} ]}) 1
  = Ok [].
Proof.
  apply (@get_line_without_changes elements_order).
  vm_compute. reflexivity.
Defined.

(** X6: with color output disabled, [get_line] does not raise for a line
    number above 0, whatever is registered. *)
Theorem get_line_uncolored_succeeds `{SO : Py.SetOrder} (self : MultiDiff)
    (line_no : Z) :
  colored self = false → 0 < line_no →
  ∃ out, get_line self line_no = Ok out.
Proof. apply get_line_uncolored. Qed.

Lemma get_line_uncolored_succeeds_witness :
  ∃ out,
    @get_line elements_order
      (set_diff_info (init "base.txt" ["foo"; "bar"] ["a.txt"] false)
         {[ 2 := {[ PLUS := [("+ bar", "a.txt", Some "? ^")] ]} ]}) 2
    = Ok out.
Proof.
  apply (@get_line_uncolored_succeeds elements_order);
    [reflexivity | reflexivity].
Defined.

(** ** Merging squigly lines, continued *)

(** X7: the merge of two squigly lines is as long as the longer one. *)
Theorem merge_squigly_length (squigly1 squigly2 : string) :
  String.length (merge_squigly squigly1 squigly2)
  = (String.length squigly1 `max` String.length squigly2)%nat.
Proof.
  rewrite merge_squigly_overlay.
  destruct (String.length squigly2 <? String.length squigly1)%nat eqn:Hlt;
    rewrite length_str, length_overlay, length_chars.
  - apply Nat.ltb_lt in Hlt. lia.
  - apply Nat.ltb_ge in Hlt. lia.
Qed.

Lemma overlay_self (l : list ascii) : overlay l l = l.
Proof.
  induction l as [|c l IH]; simpl; [done |]. rewrite IH. f_equal.
  rewrite merge_char_weak. by destruct (bool_decide _).
Qed.

(** X8: merging a squigly line with itself, as [get_line] does for the
    first tuple of a text, or with the empty string, gives the line back. *)
Theorem merge_squigly_neutral (squigly : string) :
  merge_squigly squigly squigly = squigly
  ∧ merge_squigly squigly "" = squigly
  ∧ merge_squigly "" squigly = squigly.
Proof.
  rewrite !merge_squigly_overlay, Nat.ltb_irrefl.
  rewrite overlay_self, str_chars. split; [done |].
  assert (Hnil : overlay [] (Py.chars squigly) = Py.chars squigly)
    by by destruct (Py.chars squigly).
  destruct squigly as [|c s]; [done |].
  change (Py.chars "") with (@nil ascii). rewrite Hnil, str_chars.
  by change (String.length "" <? String.length (String c s))%nat with true.
Qed.

(** ** Coloring a line *)

Lemma append_nil_r (s : string) : s ++ "" = s.
Proof. induction s as [|c s IH]; [done |]. by rewrite append_cons, IH. Qed.

Lemma join_cons (x : string) (l : list string) :
  Py.join "" (x :: l) = x ++ Py.join "" l.
Proof.
  unfold Py.join. destruct l as [|y l]; simpl; [by rewrite append_nil_r | done].
Qed.

Lemma join_app (l1 l2 : list string) :
  Py.join "" (l1 ++ l2)%list = Py.join "" l1 ++ Py.join "" l2.
Proof.
  induction l1 as [|x l1 IH]; [done |].
  change ((x :: l1) ++ l2)%list with (x :: (l1 ++ l2))%list.
  by rewrite !join_cons, IH, append_assoc.
Qed.

Lemma join_chars (s : string) :
  Py.join "" ((λ c, String c "") <$> Py.chars s) = s.
Proof.
  induction s as [|c s IH]; [done |].
  change (Py.chars (String c s)) with (c :: Py.chars s).
  rewrite fmap_cons, join_cons, IH. done.
Qed.

(** X9: with color output enabled and no squigly line, a line is put
    between the color of its first character and the end-of-color code;
    the empty line is an [IndexError]. *)
Theorem colorize_whole_line (self : MultiDiff) (c : ascii) (rest : string)
    (squigly : option string) :
  colored self = true → truthy squigly = false →
  colorize self (String c rest) squigly
  = Ok (color_map (String c rest) c ++ String c rest ++ END_COLOR)
  ∧ colorize self "" squigly = Err IndexError.
Proof.
  intros Hcol Hsq. unfold colorize. rewrite Hcol, Hsq. simpl negb. cbv iota.
  split; [| done]. f_equal. unfold Py.insert.
  rewrite take_0, drop_0, app_nil_l.
  rewrite join_app, join_cons, join_chars. by rewrite append_assoc.
Qed.

Lemma colorize_whole_line_witness :
  colorize (init "b" ["x"] ["f"] true) "+x" None
  = Ok (GREEN_BACK ++ "+x" ++ END_COLOR)
  ∧ colorize (init "b" ["x"] ["f"] true) "" None = Err IndexError.
Proof. apply (colorize_whole_line (init "b" ["x"] ["f"] true)); reflexivity. Defined.

Lemma color_map_codes (line : string) (s : ascii) :
  color_map line s ∈ [GREEN_BACK; RED_BACK; ""].
Proof.
  unfold color_map.
  repeat (case_bool_decide || destruct (Py.startswith _ _)); set_solver.
Qed.

Lemma code_not_char (x : string) :
  x ∈ [END_COLOR; GREEN_BACK; RED_BACK; ""] → String.length x ≠ 1%nat.
Proof.
  rewrite !elem_of_cons, elem_of_nil. intros [-> | [-> | [-> | [-> | []]]]]; done.
Qed.

Lemma filter_insert_code (i : nat) (x : string) (l : list string) :
  x ∈ [END_COLOR; GREEN_BACK; RED_BACK; ""] →
  filter (λ s, String.length s = 1%nat) (Py.insert i x l)
  = filter (λ s, String.length s = 1%nat) l.
Proof.
  intros Hx%code_not_char. unfold Py.insert.
  rewrite filter_app, filter_cons_False, <- filter_app, take_drop; done.
Qed.

Lemma Forall_insert_code (i : nat) (x : string) (l : list string) :
  x ∈ [END_COLOR; GREEN_BACK; RED_BACK; ""] →
  Forall (λ s, String.length s = 1%nat
               ∨ s ∈ [END_COLOR; GREEN_BACK; RED_BACK; ""]) l →
  Forall (λ s, String.length s = 1%nat
               ∨ s ∈ [END_COLOR; GREEN_BACK; RED_BACK; ""]) (Py.insert i x l).
Proof.
  intros Hx Hl. unfold Py.insert. apply Forall_app. split.
  - by apply Forall_take.
  - constructor; [by right | by apply Forall_drop].
Qed.

Lemma colorize_loop_keeps (line : string) (squigly : list ascii) :
  ∀ (i : nat) (chars : list string) (flag : ascii) (compensator : nat)
    (orig : list string),
  filter (λ s, String.length s = 1%nat) chars = orig →
  Forall (λ s, String.length s = 1%nat
               ∨ s ∈ [END_COLOR; GREEN_BACK; RED_BACK; ""]) chars →
  let chars' := (colorize_loop line i squigly (chars, flag, compensator)).1.1 in
  filter (λ s, String.length s = 1%nat) chars' = orig
  ∧ Forall (λ s, String.length s = 1%nat
                 ∨ s ∈ [END_COLOR; GREEN_BACK; RED_BACK; ""]) chars'.
Proof.
  assert (Hend : END_COLOR ∈ [END_COLOR; GREEN_BACK; RED_BACK; ""]) by set_solver.
  assert (Hmap : ∀ s, color_map line s ∈ [END_COLOR; GREEN_BACK; RED_BACK; ""]).
  { intros s. pose proof (color_map_codes line s). set_solver. }
  induction squigly as [|s squigly IH]; intros i chars flag compensator orig Hf Ha;
    [done |].
  cbn [colorize_loop]. repeat case_bool_decide; apply IH;
    rewrite ?filter_insert_code; auto using Forall_insert_code.
Qed.

Lemma chars_pieces (l : list ascii) :
  filter (λ s, String.length s = 1%nat) ((λ c, String c "") <$> l)
  = (λ c, String c "") <$> l
  ∧ Forall (λ s, String.length s = 1%nat
                 ∨ s ∈ [END_COLOR; GREEN_BACK; RED_BACK; ""])
           ((λ c, String c "") <$> l).
Proof.
  induction l as [|c l [IH1 IH2]]; [by split |]. rewrite fmap_cons. split.
  - rewrite filter_cons_True by done. by rewrite IH1.
  - constructor; [by left | done].
Qed.

(** X10: whatever the squigly line, [colorize] returns the characters of
    the line, all of them and in their order, with nothing but color
    codes put between them. *)
Theorem colorize_keeps_text (self : MultiDiff) (line : string)
    (squigly : option string) (out : string) :
  colorize self line squigly = Ok out →
  ∃ pieces : list string,
    out = Py.join "" pieces
    ∧ filter (λ s, String.length s = 1%nat) pieces
      = (λ c, String c "") <$> Py.chars line
    ∧ Forall (λ s, String.length s = 1%nat
                   ∨ s ∈ [END_COLOR; GREEN_BACK; RED_BACK; ""]) pieces.
Proof.
  assert (Hend : END_COLOR ∈ [END_COLOR; GREEN_BACK; RED_BACK; ""]) by set_solver.
  destruct (chars_pieces (Py.chars line)) as [Hf Ha].
  unfold colorize. destruct (colored self); simpl negb; cbv iota.
  - destruct (truthy squigly).
    + pose proof (colorize_loop_keeps line (Py.chars (default "" squigly))
                    0 _ SPACE 0 _ Hf Ha) as Hloop.
      destruct (colorize_loop _ _ _ _) as [[chars flag] compensator].
      simpl in Hloop. destruct Hloop as [Hf' Ha'].
      intros [= <-]. eexists. split; [reflexivity |].
      rewrite filter_insert_code by done. auto using Forall_insert_code.
    + destruct line as [|c rest]; [done |]. intros [= <-].
      exists (Py.insert 0 (color_map (String c rest) c)
                ((λ c, String c "") <$> Py.chars (String c rest))
              ++ [END_COLOR])%list.
      split; [reflexivity |].
      assert (Hmap : color_map (String c rest) c
                       ∈ [END_COLOR; GREEN_BACK; RED_BACK; ""]).
      { pose proof (color_map_codes (String c rest) c). set_solver. }
      rewrite filter_app, filter_insert_code by done.
      rewrite filter_cons_False, filter_nil, app_nil_r by by apply code_not_char.
      split; [done |]. apply Forall_app. split.
      * by apply Forall_insert_code.
      * apply Forall_singleton. by right.
  - intros [= <-]. exists ((λ c, String c "") <$> Py.chars line).
    by rewrite join_chars.
Qed.

Lemma colorize_keeps_text_witness :
  ∃ pieces : list string,
    END_COLOR ++ GREEN_BACK ++ "+a" ++ END_COLOR ++ "b" ++ END_COLOR
              ++ GREEN_BACK ++ "c" ++ END_COLOR
    = Py.join "" pieces
    ∧ filter (λ s, String.length s = 1%nat) pieces
      = (λ c, String c "") <$> Py.chars "+abc"
    ∧ Forall (λ s, String.length s = 1%nat
                   ∨ s ∈ [END_COLOR; GREEN_BACK; RED_BACK; ""]) pieces.
Proof.
  apply (colorize_keeps_text (init "b" ["x"] ["f"] true) "+abc" (Some "++ +")).
  vm_compute. reflexivity.
Defined.

(** ** The alignment of any stream *)

Lemma setdefault_append_entries {V : Type} (k k' : Z) (v x : V)
    (d : list (Z * list V)) (es : list V) :
  (k', es) ∈ setdefault_append k v d → x ∈ es →
  (k' = k ∧ x = v) ∨ ∃ es', (k', es') ∈ d ∧ x ∈ es'.
Proof.
  induction d as [|[k0 vs] d IH]; simpl; intros Hin Hx.
  - apply list_elem_of_singleton in Hin. simplify_eq.
    apply list_elem_of_singleton in Hx. by left.
  - case_bool_decide as Hk.
    + subst k0. apply elem_of_cons in Hin as [Hin | Hin].
      * simplify_eq. apply elem_of_app in Hx as [Hx | Hx].
        -- right. exists vs. split; [left | done].
        -- apply list_elem_of_singleton in Hx. by left.
      * right. exists es. split; [by right | done].
    + apply elem_of_cons in Hin as [Hin | Hin].
      * simplify_eq. right. exists vs. split; [left | done].
      * destruct (IH Hin Hx) as [? | (es' & ? & ?)]; [by left |].
        right. exists es'. split; [by right | done].
Qed.

Lemma align_step_entries (filename : string) (st : align_state) (i k : Z)
    (line : string) (es : list (string * string)) (x : string * string) :
  (k, es) ∈ local_diff (align_step filename st i line) → x ∈ es →
  (∃ es', (k, es') ∈ local_diff st ∧ x ∈ es')
  ∨ (k = i + compensator st
     ∧ ∃ key rest, x.1 = String key rest ∧ key ∈ [MINUS; PLUS]).
Proof.
  unfold align_step. intros Hin Hx.
  destruct (Py.startswith "?" line); [left; eauto |].
  destruct line as [|key rest]; [left; eauto |].
  rewrite !startswith_char in Hin.
  repeat case_bool_decide; simpl in Hin; [| | left; eauto];
    (destruct (setdefault_append_entries _ _ _ _ _ _ Hin Hx)
       as [[-> ->] | ?]; [right | by left]);
    (split; [done |]); exists key, rest; (split; [done |]); subst key;
    set_solver.
Qed.

Lemma align_step_compensator (filename : string) (st : align_state) (i : Z)
    (line : string) :
  i + compensator st ≤ i + 1 + compensator (align_step filename st i line).
Proof.
  unfold align_step. repeat destruct (Py.startswith _ _); simpl; lia.
Qed.

Lemma align_loop_entries (filename : string) (diff : list string) :
  ∀ (st : align_state) (i k : Z) (es : list (string * string))
    (x : string * string),
  (k, es) ∈ local_diff (align_loop filename i diff st) → x ∈ es →
  (∃ es', (k, es') ∈ local_diff st ∧ x ∈ es')
  ∨ (i + compensator st ≤ k
     ∧ ∃ key rest, x.1 = String key rest ∧ key ∈ [MINUS; PLUS]).
Proof.
  induction diff as [|line diff IH]; intros st i k es x Hin Hx; simpl in Hin.
  { left; eauto. }
  pose proof (align_step_compensator filename st i line) as Hc.
  destruct (IH _ _ _ _ _ Hin Hx) as [(es' & Hin' & Hx') | [Hk Hkey]].
  - destruct (align_step_entries _ _ _ _ _ _ _ Hin' Hx') as [? | [-> ?]];
      [by left | right]. split; [lia | done].
  - right. split; [lia | done].
Qed.

(** Whatever the stream, the calls of [parse_line] have a line number from
    1 on and a line starting with [-] or [+]. *)
Lemma parse_calls_sound (filename : string) (diff : list string)
    (line_no : Z) (line meta squigly : string) :
  (line_no, line, meta, squigly) ∈ parse_calls filename diff →
  1 ≤ line_no ∧ ∃ key rest, line = String key rest ∧ key ∈ [MINUS; PLUS].
Proof.
  intros Hin. unfold parse_calls in Hin.
  apply list_elem_of_bind in Hin as ([n entries] & Hin & Hentry).
  apply list_elem_of_bind in Hin as ([l f] & Hin & Hl).
  apply list_elem_of_singleton in Hin. simplify_eq.
  destruct (align_loop_entries _ _ _ _ _ _ _ Hentry Hl)
    as [(es' & Hnil & _) | [Hk Hkey]].
  - by apply elem_of_nil in Hnil.
  - simpl in Hk. split; [lia | done].
Qed.

(** ** What [multidiff] registers *)

Lemma rstrip_nonempty (key : ascii) (rest : string) :
  key ∈ [MINUS; PLUS] → Py.rstrip (String key rest) ≠ "".
Proof.
  intros Hkey. unfold Py.rstrip.
  change (Py.chars (String key rest)) with (key :: Py.chars rest).
  assert (Py.isspace key = false) as Hsp.
  { apply elem_of_cons in Hkey as [-> | Hkey]; [done |].
    by apply list_elem_of_singleton in Hkey as ->. }
  simpl. rewrite Hsp. by destruct (Py.rstrip_chars (Py.chars rest)).
Qed.

Lemma parse_line_registered (self : MultiDiff) (line_no : Z) (key : ascii)
    (rest meta : string) (squigly_line : option string) :
  well_registered self → 1 ≤ line_no → key ∈ [MINUS; PLUS] →
  ∃ self', parse_line self line_no (String key rest) meta squigly_line = Ok self'
    ∧ well_registered self'
    ∧ colored self' = colored self
    ∧ base_lines self' = base_lines self.
Proof.
  intros Hwr Hn Hkey. unfold parse_line.
  rewrite bool_decide_eq_true_2 by done. simpl.
  eexists. split; [done |]. split; [| done].
  intros n k c. unfold tuples_at. simpl.
  destruct (decide (n = line_no)) as [-> | Hne].
  - rewrite lookup_insert_eq. simpl.
    destruct (decide (k = key)) as [-> | Hke].
    + rewrite lookup_insert_eq. simpl. intros [Hc | Hc]%elem_of_app.
      * by apply (Hwr line_no key).
      * apply list_elem_of_singleton in Hc as ->. simpl.
        split; [done |]. by apply rstrip_nonempty.
    + rewrite lookup_insert_ne by done. apply (Hwr line_no k).
  - rewrite lookup_insert_ne by done. apply (Hwr n k).
Qed.

Lemma parse_all_registered (calls : list (Z * string * string * string)) :
  ∀ mdiff : MultiDiff,
  well_registered mdiff →
  (∀ line_no line meta squigly, (line_no, line, meta, squigly) ∈ calls →
     1 ≤ line_no ∧ ∃ key rest, line = String key rest ∧ key ∈ [MINUS; PLUS]) →
  ∃ mdiff', parse_all mdiff calls = Ok mdiff'
    ∧ well_registered mdiff'
    ∧ colored mdiff' = colored mdiff
    ∧ base_lines mdiff' = base_lines mdiff.
Proof.
  induction calls as [|[[[line_no line] meta] squigly] calls IH];
    intros mdiff Hwr Hcalls; simpl; [eauto |].
  destruct (Hcalls line_no line meta squigly) as (Hn & key & rest & -> & Hkey);
    [left |].
  destruct (parse_line_registered mdiff line_no key rest meta (Some squigly)
              Hwr Hn Hkey) as (mdiff1 & -> & Hwr1 & Hc1 & Hb1).
  simpl. destruct (IH mdiff1 Hwr1) as (mdiff' & -> & Hwr' & Hc' & Hb').
  { intros n l m s Hin. apply (Hcalls n l m s). by right. }
  exists mdiff'. by rewrite Hc', Hb'.
Qed.

Lemma parse_files_registered (diffs : list (string * list string)) :
  ∀ mdiff : MultiDiff,
  well_registered mdiff →
  ∃ mdiff', parse_files mdiff diffs = Ok mdiff'
    ∧ well_registered mdiff'
    ∧ colored mdiff' = colored mdiff
    ∧ base_lines mdiff' = base_lines mdiff.
Proof.
  induction diffs as [|[filepath diff] diffs IH]; intros mdiff Hwr; simpl;
    [eauto |].
  destruct (parse_all_registered (parse_calls (Py.basename filepath) diff)
              mdiff Hwr) as (mdiff1 & -> & Hwr1 & Hc1 & Hb1).
  { intros. by eapply parse_calls_sound. }
  simpl. destruct (IH mdiff1 Hwr1) as (mdiff' & -> & Hwr' & Hc' & Hb').
  exists mdiff'. by rewrite Hc', Hb'.
Qed.

Section total.
Context `{SO : Py.SetOrder}.

Lemma select_lines_subset (lines : gset string)
    (changes_dict : gmap string (gset string)) (x : string) :
  x ∈ select_lines lines changes_dict → x ∈ lines.
Proof.
  unfold select_lines. intros Hx.
  pose proof (elem_of_sublist _ _ _ Hx (sublist_take _ _)) as Hx'.
  apply list_elem_of_In, in_rev, list_elem_of_In in Hx'.
  rewrite sorted_perm, Py.set_iter_perm in Hx'. by apply elem_of_elements in Hx'.
Qed.

Lemma colorize_nonempty (self : MultiDiff) (line : string)
    (squigly : option string) :
  line ≠ "" → ∃ out, colorize self line squigly = Ok out.
Proof.
  intros Hne. unfold colorize.
  destruct (negb (colored self)); [eauto |].
  destruct (truthy squigly).
  - destruct (colorize_loop _ _ _ _) as [[chars flag] compensator]. eauto.
  - destruct line; [done | eauto].
Qed.

Lemma render_line_nonempty (self : MultiDiff) (line_no : Z)
    (changes_dict : gmap string (gset string))
    (squigly_dict : gmap string string) (diff_line : string) :
  diff_line ≠ "" → 0 < line_no →
  ∃ out, render_line self line_no changes_dict squigly_dict diff_line = Ok out.
Proof.
  intros Hne Hn. unfold render_line.
  destruct (colorize_nonempty self diff_line
              (Some (default "" (squigly_dict !! diff_line))) Hne) as [c ->].
  destruct (int_log10_positive line_no Hn) as [k Hk]. simpl.
  destruct (negb (colored self) && _); [rewrite Hk |]; simpl; eauto.
Qed.

Lemma render_lines_nonempty (self : MultiDiff) (line_no : Z)
    (changes_dict : gmap string (gset string))
    (squigly_dict : gmap string string) (lines : list string) :
  Forall (λ line, line ≠ "") lines → 0 < line_no →
  ∃ out, render_lines self line_no changes_dict squigly_dict lines = Ok out.
Proof.
  intros Hne Hn. induction Hne as [|diff_line lines Hd Hne [rest IH]]; simpl;
    [eauto |].
  destruct (render_line_nonempty self line_no changes_dict squigly_dict
              diff_line Hd Hn) as [out ->].
  rewrite IH. simpl. eauto.
Qed.

Lemma render_key_registered (self : MultiDiff) (line_no : Z) (key : ascii) :
  well_registered self → ∃ out, render_key self line_no key = Ok out.
Proof.
  intros Hwr. destruct (tuples_at self line_no key) as [|c0 tuples] eqn:Ht.
  { rewrite render_key_no_tuples by done. eauto. }
  assert (0 < line_no) as Hn.
  { destruct (Hwr line_no key c0); [rewrite Ht; left | lia]. }
  unfold render_key. fold (tuples_at self line_no key).
  pose proof (scan_lines (tuples_at self line_no key)) as Hlines.
  destruct (scan (tuples_at self line_no key))
    as [[lines changes_dict] squigly_dict]. simpl in Hlines.
  apply render_lines_nonempty; [| done].
  apply Forall_forall. intros x Hx%select_lines_subset.
  rewrite Hlines in Hx. unfold texts in Hx.
  apply elem_of_list_to_set, list_elem_of_fmap in Hx as (c & -> & Hc).
  by apply (Hwr line_no key c).
Qed.

Lemma get_line_registered (self : MultiDiff) (line_no : Z) :
  well_registered self → ∃ out, get_line self line_no = Ok out.
Proof.
  intros Hwr. unfold get_line.
  destruct (render_key_registered self line_no MINUS Hwr) as [out1 ->].
  destruct (render_key_registered self line_no PLUS Hwr) as [out2 ->].
  simpl. eauto.
Qed.

Lemma str_loop_registered (self : MultiDiff) (term_width : Z)
    (line_nos : list Z) :
  well_registered self →
  ∀ st, ∃ st', str_loop self term_width line_nos st = Ok st'.
Proof.
  intros Hwr. induction line_nos as [|i line_nos IH]; intros st; simpl;
    [eauto |].
  destruct (get_line_registered self i Hwr) as [out ->]. simpl.
  destruct (filter _ out); apply IH.
Qed.

Lemma to_str_registered (self : MultiDiff) (term_width : Z) :
  well_registered self → ∃ out, to_str self term_width = Ok out.
Proof.
  intros Hwr. unfold to_str, str_output.
  destruct (str_loop_registered self term_width
              (range (length (base_lines self))) Hwr
              (["Comparing " ++ color_line self (Py.basename (base self)) PURPLE
                  ++ " with " ++ Py.join ", " (Py.basename <$> files self);
                Py.repeat_char "="%char SEP_WIDTH], false))
    as [[output diff] ->].
  simpl. eauto.
Qed.

End total.

Lemma init_registered (base : string) (base_lines files : list string)
    (colored : bool) :
  well_registered (init base base_lines files colored).
Proof. intros line_no key c Hc. by apply elem_of_nil in Hc. Qed.

(** X11: whatever lines the stream of a diff holds, every call of
    [parse_line] that [multidiff] makes has a line number from 1 on and a
    line starting with [-] or [+]. *)
Theorem parse_calls_any_stream (filename : string) (diff : list string)
    (line_no : Z) (line meta squigly : string) :
  (line_no, line, meta, squigly) ∈ parse_calls filename diff →
  1 ≤ line_no ∧ ∃ key rest, line = String key rest ∧ key ∈ [MINUS; PLUS].
Proof. apply parse_calls_sound. Qed.

Lemma parse_calls_any_stream_witness :
  1 ≤ 1 ∧ ∃ key rest, "+ b" = String key rest ∧ key ∈ [MINUS; PLUS].
Proof.
  apply (parse_calls_any_stream "a.txt" ["- a"; "? ^"; "+ b"; "? ^"; "junk"]
           1 "+ b" "a.txt" "? ^").
  vm_compute. right. left.
Defined.

(** X12: whatever the files and their diffs, the changes [multidiff]
    registers are all accepted by [parse_line], stand at line numbers from
    1 on, and have a text that is not empty. *)
Theorem multidiff_registers (base : string) (base_lines : list string)
    (diffs : list (string * list string)) (colored : bool) :
  ∃ mdiff, parse_files (init base base_lines (diffs.*1) colored) diffs = Ok mdiff
    ∧ ∀ (line_no : Z) (key : ascii) (c : change),
        c ∈ tuples_at mdiff line_no key → 1 ≤ line_no ∧ c.1.1 ≠ "".
Proof.
  destruct (parse_files_registered diffs
              (init base base_lines (diffs.*1) colored)
              (init_registered _ _ _ _)) as (mdiff & Hparse & Hwr & _).
  by exists mdiff.
Qed.

(** X13: [multidiff] raises for no base, files, diffs, color setting and
    terminal width: it always returns a report. *)
Theorem multidiff_never_raises `{SO : Py.SetOrder} (base : string)
    (base_lines : list string) (diffs : list (string * list string))
    (colored : bool) (term_width : Z) :
  ∃ report, multidiff base base_lines diffs colored term_width = Ok report.
Proof.
  unfold multidiff.
  destruct (parse_files_registered diffs
              (init base base_lines (diffs.*1) colored)
              (init_registered _ _ _ _)) as (mdiff & -> & Hwr & _).
  simpl. by apply to_str_registered.
Qed.

(** ** The size of what [get_line] returns *)

Section size.
Context `{SO : Py.SetOrder}.

Lemma render_line_size (self : MultiDiff) (line_no : Z)
    (changes_dict : gmap string (gset string))
    (squigly_dict : gmap string string) (diff_line : string)
    (out : list string) :
  render_line self line_no changes_dict squigly_dict diff_line = Ok out →
  (1 ≤ length out ≤ 2)%nat ∧ (colored self = true → length out = 1%nat).
Proof.
  unfold render_line. destruct (colorize _ _ _) as [c | e]; simpl; [| done].
  destruct (negb (colored self) && _) eqn:Hb.
  - destruct (Py.int_log10 line_no); simpl; [| done]. intros [= <-]. simpl.
    split; [lia |]. intros Hc. by rewrite Hc in Hb.
  - intros [= <-]. simpl. split; [lia | done].
Qed.

Lemma render_lines_size (self : MultiDiff) (line_no : Z)
    (changes_dict : gmap string (gset string))
    (squigly_dict : gmap string string) (lines : list string) :
  ∀ out, render_lines self line_no changes_dict squigly_dict lines = Ok out →
  (length lines ≤ length out ≤ 2 * length lines)%nat
  ∧ (colored self = true → length out = length lines).
Proof.
  induction lines as [|diff_line lines IH]; intros out; simpl.
  { intros [= <-]. simpl. split; [lia | done]. }
  destruct (render_line _ _ _ _ _) as [out1 | e] eqn:H1; simpl; [| done].
  destruct (render_lines _ _ _ _ _) as [rest | e]; simpl; [| done].
  intros [= <-]. rewrite length_app.
  apply render_line_size in H1 as [H1 H1c].
  destruct (IH rest eq_refl) as [IH1 IHc].
  split; [lia |]. intros Hc. rewrite H1c, IHc by done. done.
Qed.

Lemma render_key_size (self : MultiDiff) (line_no : Z) (key : ascii)
    (out : list string) :
  render_key self line_no key = Ok out →
  (length (groups_for self line_no key) ≤ length out
   ≤ 2 * length (groups_for self line_no key))%nat
  ∧ (colored self = true → length out = length (groups_for self line_no key)).
Proof.
  unfold render_key, groups_for.
  destruct (scan _) as [[lines changes_dict] squigly_dict].
  apply render_lines_size.
Qed.

Lemma get_line_length (self : MultiDiff) (line_no : Z) (out : list string) :
  get_line self line_no = Ok out →
  ∃ removals additions,
    render_key self line_no MINUS = Ok removals
    ∧ render_key self line_no PLUS = Ok additions
    ∧ length out
      = (length removals + length additions
         + (if has_diff self line_no && negb (has_diff self (line_no + 1))
            then 3 else 0))%nat.
Proof.
  unfold get_line.
  destruct (render_key self line_no MINUS) as [removals | e]; simpl; [| done].
  destruct (render_key self line_no PLUS) as [additions | e]; simpl; [| done].
  intros [= <-]. exists removals, additions. rewrite !length_app.
  repeat split. destruct (_ && _); simpl; lia.
Qed.

End size.

(** X14: what [get_line] returns has one line for each displayed group,
    one or two when color output is disabled, and three more when the
    separator is due: eleven lines at most. *)
Theorem get_line_size `{SO : Py.SetOrder} (self : MultiDiff) (line_no : Z)
    (out : list string) :
  get_line self line_no = Ok out →
  (length (groups_for self line_no MINUS) + length (groups_for self line_no PLUS)
   + (if has_diff self line_no && negb (has_diff self (line_no + 1))
      then 3 else 0)
   ≤ length out
   ≤ 2 * (length (groups_for self line_no MINUS)
          + length (groups_for self line_no PLUS))
     + (if has_diff self line_no && negb (has_diff self (line_no + 1))
        then 3 else 0))%nat
  ∧ (colored self = true →
     length out
     = (length (groups_for self line_no MINUS)
        + length (groups_for self line_no PLUS)
        + (if has_diff self line_no && negb (has_diff self (line_no + 1))
           then 3 else 0))%nat)
  ∧ (length out ≤ 11)%nat.
Proof.
  intros (removals & additions & Hr & Ha & ->)%get_line_length.
  apply render_key_size in Hr as [Hr Hrc], Ha as [Ha Hac].
  assert (∀ key, length (groups_for self line_no key) ≤ 2)%nat as Hcap.
  { intros key. rewrite groups_for_eq, length_take. unfold max_groups. lia. }
  pose proof (Hcap MINUS). pose proof (Hcap PLUS).
  repeat split; [lia | lia | | destruct (_ && _); lia].
  intros Hc. by rewrite Hrc, Hac.
Qed.

Lemma get_line_size_witness :
  @get_line elements_order
    (set_diff_info (init "base.txt" ["foo"; "bar"] ["a.txt"; "b.txt"] false)
       {[ 2 := {[ PLUS := [("+ bar", "a.txt", Some "? ^");
                           ("+ baz", "b.txt", Some "")] ]} ]}) 2
  = Ok ["2 + bar (1/2) a.txt"; "  ? ^"; "2 + baz (1/2) b.txt"; " "; "-----"; " "]
  ∧ (length ["2 + bar (1/2) a.txt"; "  ? ^"; "2 + baz (1/2) b.txt"; " ";
             "-----"; " "] ≤ 11)%nat.
Proof.
  split; [vm_compute; reflexivity |].
  apply (@get_line_size elements_order
           (set_diff_info
              (init "base.txt" ["foo"; "bar"] ["a.txt"; "b.txt"] false)
              {[ 2 := {[ PLUS := [("+ bar", "a.txt", Some "? ^");
                                  ("+ baz", "b.txt", Some "")] ]} ]}) 2).
  vm_compute. reflexivity.
Defined.

(** ** The frame of the report *)

Section frame.
Context `{SO : Py.SetOrder}.

Lemma str_loop_extends (self : MultiDiff) (term_width : Z) (line_nos : list Z) :
  ∀ (output0 : list string) (diff0 : bool) (output : list string) (diff : bool),
  str_loop self term_width line_nos (output0, diff0) = Ok (output, diff) →
  ∃ body, output = (output0 ++ body)%list
    ∧ (length body ≤ length line_nos)%nat
    ∧ diff = match body with [] => diff0 | _ => true end.
Proof.
  induction line_nos as [|i line_nos IH]; intros output0 diff0 output diff; simpl.
  { intros [= <- <-]. exists []. by rewrite app_nil_r. }
  destruct (get_line self i) as [out | e]; simpl; [| done].
  destruct (filter _ out) as [|line lines].
  - intros (body & -> & Hlen & ->)%IH. exists body.
    split; [done |]. split; [lia | done].
  - intros (body & -> & Hlen & ->)%IH. eexists (_ :: body).
    rewrite <- app_assoc. split; [done |].
    split; [simpl; lia | by destruct body].
Qed.

End frame.

(** X15: the list [__str__] joins is the header, a rule, a body and a
    rule; the body is [(no diff)] alone or holds one entry for each base
    line number with something to show, so at most one for each line of
    the base. *)
Theorem report_frame `{SO : Py.SetOrder} (self : MultiDiff) (term_width : Z)
    (output : list string) :
  str_output self term_width = Ok output →
  ∃ body,
    output
    = ("Comparing " ++ color_line self (Py.basename (base self)) PURPLE
         ++ " with " ++ Py.join ", " (Py.basename <$> files self))
      :: "=====" :: (body ++ ["====="])%list
    ∧ (body = ["(no diff)"]
       ∨ (1 ≤ length body ≤ length (base_lines self))%nat).
Proof.
  unfold str_output.
  destruct (str_loop _ _ _ _) as [[output1 diff] | e] eqn:Hloop; simpl; [| done].
  apply str_loop_extends in Hloop as (body & -> & Hlen & ->).
  unfold range in Hlen. rewrite length_fmap, length_seq in Hlen.
  intros [= <-]. destruct body as [|block body]; simpl.
  - exists ["(no diff)"]. split; [done | by left].
  - exists (block :: body). split; [done | right]. simpl in *. lia.
Qed.

Lemma report_frame_witness :
  ∃ body,
    ["Comparing base.txt with a.txt, b.txt"; "====="; "1 - fox (1/2) a.txt";
     "====="]
    = ("Comparing "
         ++ color_line
              (set_diff_info
                 (init "/tmp/base.txt" ["foo"; "bar"] ["/x/a.txt"; "b.txt"]
                       false)
                 {[ 1 := {[ MINUS := [("- fox", "a.txt", Some "")] ]};
                    2 := {[ PLUS := [("+ bar", "a.txt", Some "")] ]} ]})
              (Py.basename "/tmp/base.txt") PURPLE
         ++ " with " ++ Py.join ", " (Py.basename <$> ["/x/a.txt"; "b.txt"]))
      :: "=====" :: (body ++ ["====="])%list
    ∧ (body = ["(no diff)"] ∨ (1 ≤ length body ≤ length ["foo"; "bar"])%nat).
Proof.
  apply (@report_frame elements_order
           (set_diff_info
              (init "/tmp/base.txt" ["foo"; "bar"] ["/x/a.txt"; "b.txt"] false)
              {[ 1 := {[ MINUS := [("- fox", "a.txt", Some "")] ]};
                 2 := {[ PLUS := [("+ bar", "a.txt", Some "")] ]} ]}) 80).
  vm_compute. reflexivity.
Defined.

(** ** The lines the alignment passes on *)

Lemma setdefault_append_flat {V : Type} (k : Z) (v : V) (d : list (Z * list V)) :
  concat (setdefault_append k v d).*2 ≡ₚ concat d.*2 ++ [v].
Proof.
  induction d as [|[k0 vs] d IH]; simpl; [done |].
  case_bool_decide; simpl.
  - rewrite <- !app_assoc. f_equiv. apply Permutation_app_comm.
  - by rewrite IH, app_assoc.
Qed.

Lemma startswith_guide (line : string) :
  Py.startswith "?" line = true →
  Py.startswith (String PLUS "") line || Py.startswith (String MINUS "") line
  = false.
Proof.
  destruct line as [|key rest]; [done |].
  rewrite !startswith_char. intros <-%bool_decide_eq_true. done.
Qed.

Lemma align_step_flat (filename : string) (st : align_state) (i : Z)
    (line : string) :
  concat (local_diff (align_step filename st i line)).*2
  ≡ₚ concat (local_diff st).*2
     ++ (if Py.startswith (String PLUS "") line
            || Py.startswith (String MINUS "") line
         then [(line, filename)] else []).
Proof.
  unfold align_step. destruct (Py.startswith "?" line) eqn:Hq.
  { rewrite startswith_guide by done. simpl. by rewrite app_nil_r. }
  destruct (Py.startswith (String PLUS "") line); simpl;
    [apply setdefault_append_flat |].
  destruct (Py.startswith (String MINUS "") line); simpl;
    [apply setdefault_append_flat | by rewrite app_nil_r].
Qed.

Lemma align_loop_flat (filename : string) (diff : list string) :
  ∀ (st : align_state) (i : Z),
  concat (local_diff (align_loop filename i diff st)).*2
  ≡ₚ concat (local_diff st).*2
     ++ ((λ line, (line, filename))
           <$> filter (λ line, Py.startswith (String PLUS "") line
                               || Py.startswith (String MINUS "") line = true)
                      diff).
Proof.
  induction diff as [|line diff IH]; intros st i; simpl.
  { by rewrite app_nil_r. }
  rewrite IH, align_step_flat, <- app_assoc. f_equiv.
  rewrite filter_cons.
  destruct (_ || _); [rewrite decide_True by done | rewrite decide_False by done];
    done.
Qed.

Lemma calls_lines (d : list (Z * list (string * string)))
    (squigly_of : string → string) :
  (λ call : Z * string * string * string, (call.1.1.2, call.1.2))
    <$> ('(line_no, entries) ← d;
         '(line, filename) ← entries;
         [(line_no, line, filename, squigly_of line)])
  = concat d.*2.
Proof.
  induction d as [|[line_no entries] d IH]; [done |].
  cbn [mbind list_bind fmap list_fmap concat snd] in *.
  rewrite fmap_app, IH. f_equal. clear IH.
  induction entries as [|[line filename] entries IH]; [done |].
  cbn [mbind list_bind fmap list_fmap app] in *. by rewrite IH.
Qed.

(** X16: the lines passed to [parse_line] for a file are the lines of its
    stream that start with [+] or [-], each as often as it stands in the
    stream, all under the name of the file. *)
Theorem parse_calls_complete (filename : string) (diff : list string) :
  (λ call : Z * string * string * string, (call.1.1.2, call.1.2))
    <$> parse_calls filename diff
  ≡ₚ (λ line, (line, filename))
       <$> filter (λ line, Py.startswith (String PLUS "") line
                           || Py.startswith (String MINUS "") line = true)
                  diff.
Proof.
  unfold parse_calls. cbv zeta. rewrite calls_lines.
  by rewrite align_loop_flat.
Qed.

(** ** Registering a change and reading it back *)

Section round_trip.
Context `{SO : Py.SetOrder}.

Lemma render_key_one (self : MultiDiff) (line_no : Z) (key : ascii)
    (text meta : string) (squigly_line : option string) :
  colored self = false → truthy squigly_line = false →
  tuples_at self line_no key = [(text, meta, squigly_line)] →
  render_key self line_no key
  = Ok [Py.join " "
          (app [Py.str_of_int line_no; text;
                "(" ++ Py.str_of_int 1 ++ "/"
                    ++ Py.str_of_int (Z.of_nat (length (files self))) ++ ")"]
               (if bool_decide (1%nat ≠ length (files self))
                then [meta] else []))].
Proof.
  intros Hc Hsq Ht. rewrite (render_key_single _ _ _ _ Ht).
  unfold scan. cbn [fold_left scan_step]. rewrite Hsq, lookup_empty.
  cbn [default fst snd render_lines]. rewrite union_empty_l_L.
  unfold render_line, colorize. rewrite Hc, lookup_empty, lookup_insert_eq.
  cbn [default negb truthy andb result_bind mbind]. unfold id.
  rewrite size_singleton, set_iter_singleton.
  by destruct (bool_decide (1%nat ≠ length (files self))).
Qed.

Lemma parse_line_fresh (self : MultiDiff) (line_no : Z) (key : ascii)
    (rest meta : string) (squigly_line : option string) :
  diff_info self !! line_no = None → key ∈ [MINUS; PLUS] →
  parse_line self line_no (String key rest) meta squigly_line
  = Ok (set_diff_info self
          (<[line_no := {[ key := [(Py.rstrip (String key rest), meta,
                                    squigly_line)] ]}]> (diff_info self))).
Proof.
  intros Hnone Hkey. unfold parse_line.
  rewrite bool_decide_eq_true_2 by done. rewrite Hnone. simpl.
  by rewrite lookup_empty.
Qed.

End round_trip.

(** X17: a change registered by [parse_line] at a line number without
    changes, with no squigly line, is what the uncolored [get_line] shows
    there: line number, text, [(1/n)] for [n] files, the name of the file
    unless it is the only one, and the separator unless the next line
    number has changes. *)
Theorem parse_then_get_line `{SO : Py.SetOrder} (self : MultiDiff)
    (line_no : Z) (key : ascii) (rest meta : string)
    (squigly_line : option string) :
  colored self = false → truthy squigly_line = false →
  diff_info self !! line_no = None → key ∈ [MINUS; PLUS] →
  ∃ self',
    parse_line self line_no (String key rest) meta squigly_line = Ok self'
    ∧ get_line self' line_no
      = Ok (Py.join " "
              (app [Py.str_of_int line_no; Py.rstrip (String key rest);
                    "(" ++ Py.str_of_int 1 ++ "/"
                        ++ Py.str_of_int (Z.of_nat (length (files self)))
                        ++ ")"]
                   (if bool_decide (1%nat ≠ length (files self))
                    then [meta] else []))
            :: (if has_diff self (line_no + 1) then [] else separator)).
Proof.
  intros Hc Hsq Hnone Hkey. eexists. split; [by apply parse_line_fresh |].
  set (c := (Py.rstrip (String key rest), meta, squigly_line)).
  set (self' := set_diff_info self _).
  assert (tuples_at self' line_no key = [c]) as Ht.
  { unfold tuples_at, self'. simpl.
    by rewrite lookup_insert_eq; simpl; rewrite lookup_singleton_eq. }
  assert (∀ key', key' ≠ key → tuples_at self' line_no key' = []) as Hother.
  { intros key' Hne. unfold tuples_at, self'. simpl.
    by rewrite lookup_insert_eq; simpl; rewrite lookup_singleton_ne. }
  assert (has_diff self' line_no = true) as Hhere.
  { unfold has_diff, self'. simpl. rewrite lookup_insert_eq. simpl.
    apply bool_decide_eq_true_2. intros Hempty.
    by apply (f_equal (λ m : gmap ascii (list change), m !! key)) in Hempty;
      rewrite lookup_singleton_eq, lookup_empty in Hempty. }
  assert (has_diff self' (line_no + 1) = has_diff self (line_no + 1)) as Hnext.
  { unfold has_diff, self'. simpl. by rewrite lookup_insert_ne by lia. }
  unfold get_line. rewrite Hhere, Hnext.
  apply elem_of_cons in Hkey as [-> | Hkey].
  - rewrite (render_key_one self' line_no MINUS _ _ _ Hc Hsq Ht).
    rewrite (render_key_no_tuples self' line_no PLUS) by by apply Hother.
    simpl. by destruct (has_diff self (line_no + 1)).
  - apply list_elem_of_singleton in Hkey as ->.
    rewrite (render_key_no_tuples self' line_no MINUS) by by apply Hother.
    rewrite (render_key_one self' line_no PLUS _ _ _ Hc Hsq Ht).
    simpl. by destruct (has_diff self (line_no + 1)).
Qed.

Lemma parse_then_get_line_witness :
  ∃ self',
    parse_line (init "base.txt" ["foo"] ["a.txt"; "b.txt"] false) 1
               "+ bar  " "a.txt" (Some "")
    = Ok self'
    ∧ @get_line elements_order self' 1
      = Ok ["1 + bar (1/2) a.txt"; " "; "-----"; " "].
Proof.
  apply (@parse_then_get_line elements_order
           (init "base.txt" ["foo"] ["a.txt"; "b.txt"] false) 1
           "+"%char " bar  " "a.txt" (Some ""));
    [reflexivity | reflexivity | reflexivity | right; left].
Defined.

(** ** Files equal to the base *)

Lemma parse_files_common (lines files : list string) (mdiff : MultiDiff) :
  parse_files mdiff ((λ f, (f, (λ x, "  " ++ x) <$> lines)) <$> files)
  = Ok mdiff.
Proof.
  induction files as [|f files IH]; [done |].
  rewrite fmap_cons. cbn [parse_files]. unfold parse_calls.
  by rewrite align_loop_common.
Qed.

(** X18: when the diff of every file against the base has common lines
    only, [multidiff] reports no diff. *)
Theorem multidiff_identical_files `{SO : Py.SetOrder} (base : string)
    (base_lines files : list string) (colored : bool) (term_width : Z) :
  multidiff base base_lines
    ((λ f, (f, (λ x, "  " ++ x) <$> base_lines)) <$> files) colored term_width
  = Ok (Py.join (String "010" "")
          ["Comparing "
             ++ color_line (init base base_lines files colored)
                           (Py.basename base) PURPLE
             ++ " with " ++ Py.join ", " (Py.basename <$> files);
           "====="; "(no diff)"; "====="]).
Proof.
  unfold multidiff. rewrite parse_files_common.
  assert (((λ f, (f, (λ x, "  " ++ x) <$> base_lines)) <$> files).*1 = files)
    as ->.
  { induction files as [|f files IH]; [done |]. rewrite !fmap_cons. simpl.
    by rewrite IH. }
  cbn [mbind result_bind]. unfold to_str.
  rewrite str_output_no_diff; [done |].
  intros i _. apply lookup_empty.
Qed.

(** ** Cutting a line twice *)

(** X19: with color output disabled and a width of at least three
    characters, a line cut by [limit] fits the width, and cutting it again
    changes nothing. *)
Theorem limit_idempotent (self : MultiDiff) (text : string) (width : Z) :
  colored self = false → Py.len END_LONG_LINE ≤ width →
  Py.len (limit self text width) ≤ width
  ∧ limit self (limit self text width) width = limit self text width.
Proof.
  intros Hc Hw.
  assert (Py.len END_LONG_LINE = 3) as Hdots by done.
  assert (Py.len (limit self text width) ≤ width) as Hfit.
  { unfold limit. destruct (width <? Py.len text) eqn:Hlong.
    - apply Z.ltb_lt in Hlong. rewrite Hc. cbv zeta.
      rewrite len_append, len_slice_to by lia. lia.
    - by apply Z.ltb_ge in Hlong. }
  split; [done |].
  unfold limit at 1. by rewrite (proj2 (Z.ltb_ge _ _)) by done.
Qed.

Lemma limit_idempotent_witness :
  Py.len (limit (init "base.txt" [] [] false) "1 - abcdefgh (1/1)" 10) ≤ 10
  ∧ limit (init "base.txt" [] [] false)
          (limit (init "base.txt" [] [] false) "1 - abcdefgh (1/1)" 10) 10
    = limit (init "base.txt" [] [] false) "1 - abcdefgh (1/1)" 10.
Proof.
  apply (limit_idempotent (init "base.txt" [] [] false) "1 - abcdefgh (1/1)" 10);
    [reflexivity | by vm_compute].
Defined.
